(** * lfsapi/endpoint_finder.go: endpoint resolution and access-mode cache

    A shallow embedding of the endpoint finder of git-lfs
    ([src/lfsapi/endpoint_finder.go]).  Go strings are byte strings and are
    modelled by [string] (a list of 8-bit [ascii]); Go maps are modelled by
    stdpp's [gmap]; the finder's mutable fields are threaded through a small
    state monad. *)

From Stdlib Require Import Ascii String List Bool Arith Lia.
From stdpp Require Import gmap strings list fin_maps.

Local Open Scope string_scope.

(** ** The Go standard library functions the file calls *)

Module strings.

(** [strings.HasPrefix(s, prefix)] *)
Definition HasPrefix (s prefix : string) : bool := String.prefix prefix s.

(** [s[n:]] for [n <= len(s)] *)
Fixpoint drop (n : nat) (s : string) : string :=
  match n, s with
  | O, _ => s
  | S _, EmptyString => EmptyString
  | S n', String _ s' => drop n' s'
  end.

(** [s[:n]] for [n <= len(s)] *)
Fixpoint take (n : nat) (s : string) : string :=
  match n, s with
  | O, _ => EmptyString
  | S _, EmptyString => EmptyString
  | S n', String c s' => String c (take n' s')
  end.

(** [strings.HasSuffix(s, suffix)] *)
Definition HasSuffix (s suffix : string) : bool :=
  (String.length suffix <=? String.length s)%nat &&
  String.eqb (drop (String.length s - String.length suffix) s) suffix.

(** [strings.Contains(s, substr)] *)
Fixpoint Contains (s substr : string) : bool :=
  String.prefix substr s ||
  match s with
  | EmptyString => false
  | String _ s' => Contains s' substr
  end.

(** A string all of whose bytes are below 128. *)
Definition isASCII (s : string) : bool :=
  forallb (fun c => (nat_of_ascii c <? 128)%nat) (list_ascii_of_string s).

(** [strings.ToLower] as it acts on ASCII strings: the bytes 'A'..'Z' are
    mapped to 'a'..'z', every other byte is kept.  On a string with a
    non-ASCII byte Go maps every rune through the Unicode tables, which this
    function does not do; what is stated below about lower-casing of
    arbitrary strings is stated for [isASCII] strings. *)
Definition lower_byte (c : ascii) : ascii :=
  let n := nat_of_ascii c in
  if ((65 <=? n) && (n <=? 90))%nat then ascii_of_nat (n + 32) else c.

Fixpoint ToLower (s : string) : string :=
  match s with
  | EmptyString => EmptyString
  | String c s' => String (lower_byte c) (ToLower s')
  end.

(** The Go comparison [a < b] on strings: bytewise lexicographic. *)
Definition lt (a b : string) : bool := String.ltb a b.

End strings.

Module path.

(** [path.Ext]: the suffix beginning at the final dot in the final
    slash-separated element of the path; empty if there is no dot.
<<
    for i := len(path) - 1; i >= 0 && path[i] != '/'; i-- {
        if path[i] == '.' { return path[i:] }
    }
    return ""
>>
    [ext_scan] walks the reversed string and accumulates the bytes seen. *)
Fixpoint ext_scan (rev_path : list ascii) (seen : string) : string :=
  match rev_path with
  | [] => ""
  | c :: rest =>
      if Ascii.eqb c "/" then ""
      else if Ascii.eqb c "." then String c seen
      else ext_scan rest (String c seen)
  end.

Definition Ext (p : string) : string :=
  ext_scan (rev (list_ascii_of_string p)) "".

End path.

(** ** The alias table *)

(** One iteration of the loop of [ReplaceUrlAlias]. *)
Definition alias_step (rawurl : string) (longestalias alias : string) : string :=
  if negb (strings.HasPrefix rawurl alias) then longestalias
  else if strings.lt longestalias alias then alias
  else longestalias.

(** The loop [for alias, _ := range e.aliases], run over the keys in the
    order [order]; Go leaves the iteration order of a map unspecified. *)
Definition longest_alias (order : list string) (rawurl : string) : string :=
  fold_left (alias_step rawurl) order "".

(** [e.aliases[k]]: indexing a Go map yields the zero value for an absent key. *)
Definition alias_index (aliases : gmap string string) (k : string) : string :=
  default "" (aliases !! k).

Definition ReplaceUrlAlias_in (order : list string)
    (aliases : gmap string string) (rawurl : string) : string :=
  let longestalias := longest_alias order rawurl in
  if (0 <? String.length longestalias)%nat
  then alias_index aliases longestalias ++ strings.drop (String.length longestalias) rawurl
  else rawurl.

(** [ReplaceUrlAlias] with the iteration order of the map taken from
    [map_to_list]. *)
Definition ReplaceUrlAlias (aliases : gmap string string) (rawurl : string) : string :=
  ReplaceUrlAlias_in (map fst (map_to_list aliases)) aliases rawurl.


Definition aliasPrefix : string := "url.".

(** The Go slice expression [s[lo:hi]], which panics unless
    [lo <= hi <= len(s)]; [None] stands for the panic. *)
Definition slice (lo hi : nat) (s : string) : option string :=
  if ((lo <=? hi) && (hi <=? String.length s))%nat
  then Some (strings.take (hi - lo) (strings.drop lo s))
  else None.

(** [storeAlias]: the alias is the last configured value, the replacement is
    the key without [aliasPrefix] and [suffix].  The diagnostic printed for a
    duplicate alias is returned as a flag.  The index expression
    [value[len(value)-1]], evaluated first, panics on an empty slice, and the
    slice of the key panics when out of range; [None] stands for either
    panic. *)
Definition storeAlias (aliases : gmap string string) (key : string)
    (value : list string) (suffix : string) : option (gmap string string * bool) :=
  match value with
  | [] => None
  | _ :: _ =>
      let alias := List.last value "" in
      let warned := bool_decide (is_Some (aliases !! alias)) in
      match slice (String.length aliasPrefix)
                  (String.length key - String.length suffix) key with
      | Some replacement => Some (<[alias := replacement]> aliases, warned)
      | None => None
      end
  end.

(** [initAliases] over the entries of [git.All()] in iteration order. *)
Fixpoint initAliases (aliases : gmap string string)
    (all : list (string * list string)) : option (gmap string string) :=
  match all with
  | [] => Some aliases
  | (gitkey, gitval) :: rest =>
      let suffix := ".insteadof" in
      if (List.length gitval =? 0)%nat
         || negb (strings.HasPrefix gitkey aliasPrefix && strings.HasSuffix gitkey suffix)
      then initAliases aliases rest
      else match storeAlias aliases gitkey gitval suffix with
           | Some (aliases', _) => initAliases aliases' rest
           | None => None
           end
  end.

(** ** net/url *)

Module url.

Record Userinfo := mkUserinfo {
  username : string;
  password : string;
  passwordSet : bool
}.

Record URL := mkURL {
  Scheme : string;
  Opaque : string;
  User : option Userinfo;
  Host : string;
  Path : string;
  ForceQuery : bool;
  RawQuery : string;
  Fragment : string
}.

Definition with_Scheme (u : URL) (s : string) : URL :=
  mkURL s (Opaque u) (User u) (Host u) (Path u) (ForceQuery u) (RawQuery u) (Fragment u).

Definition with_User (u : URL) (usr : option Userinfo) : URL :=
  mkURL (Scheme u) (Opaque u) usr (Host u) (Path u) (ForceQuery u) (RawQuery u) (Fragment u).

(** The two functions of net/url the finder calls: [url.Parse], whose
    error result is [None], and the method [String] of [URL]. *)
Class Net := {
  Parse : string -> option URL;
  String : URL -> string
}.

End url.

(** ** lfshttp *)

Module lfshttp.

(** Modelled from the spec: the [Endpoint] struct of package lfshttp, whose
    declaration is not part of the sources: the canonical URL string, the
    operation tag and the SSH user/host/port/path decomposition. *)
Record Endpoint := mkEndpoint {
  Url : string;
  SshUserAndHost : string;
  SshPath : string;
  SshPort : string;
  Operation : string
}.

(** The composite literal [lfshttp.Endpoint{Url: u}] and the zero value
    [lfshttp.Endpoint{}]. *)
Definition of_url (u : string) : Endpoint := mkEndpoint u "" "" "" "".
Definition zero : Endpoint := of_url "".

Definition with_Url (ep : Endpoint) (u : string) : Endpoint :=
  mkEndpoint u (SshUserAndHost ep) (SshPath ep) (SshPort ep) (Operation ep).

Definition with_Operation (ep : Endpoint) (op : string) : Endpoint :=
  mkEndpoint (Url ep) (SshUserAndHost ep) (SshPath ep) (SshPort ep) op.

(** The constructors and the constant of package lfshttp that the finder
    uses; their bodies are not part of the sources. *)
Class Lib := {
  UrlUnknown : string;
  EndpointFromLocalPath : string -> Endpoint;
  EndpointFromBareSshUrl : string -> Endpoint;
  EndpointFromSshUrl : url.URL -> Endpoint;
  EndpointFromHttpUrl : url.URL -> Endpoint
}.

End lfshttp.

(** ** config and git *)

Module config.

(** [config.Environment]: [Get(key)] returns [(value, ok)], modelled by an
    option; [All()] is the list of the entries of the returned map. *)
Record Environment := mkEnvironment {
  Get : string -> option string;
  All : list (string * list string)
}.

(** The method [Get(prefix, rawurl, key)] of [config.URLConfig] returns
    [(value, ok)]. *)
Record URLConfig := mkURLConfig {
  URLConfig_Get : string -> string -> string -> string * bool
}.

End config.

Module git.

(** [git.ValidateRemote(remote) == nil] *)
Class Lib := {
  ValidateRemote : string -> bool
}.

End git.

(** ** The finder *)

Definition AccessMode : Type := string.

Definition NoneAccess : AccessMode := "none".
Definition BasicAccess : AccessMode := "basic".
Definition PrivateAccess : AccessMode := "private".
Definition NegotiateAccess : AccessMode := "negotiate".
Definition NTLMAccess : AccessMode := "ntlm".
Definition emptyAccess : AccessMode := "".
Definition defaultRemote : string := "origin".

Record Access := mkAccess {
  mode : AccessMode;
  url : string
}.

Definition Upgrade (a : Access) (newMode : AccessMode) : Access :=
  mkAccess newMode (url a).

Definition Mode (a : Access) : AccessMode := mode a.

(** Calls to the collaborators that have an effect outside the finder or
    that tests count: reads through [urlConfig], writes to the local
    configuration, diagnostics on stderr and trace output. *)
Inductive Call :=
| URLConfigGet (prefix rawurl key : string)
| UnsetLocalKey (key : string)
| SetLocal (key val : string)
| StderrParseError (rawurl : string)
| Tracerx (msg : string).

Definition is_config_read (c : Call) : bool :=
  match c with URLConfigGet _ _ _ => true | _ => false end.

(** The struct [endpointGitFinder].  [gitConfig] is the local configuration
    store behind [*git.Configuration]; the two mutexes have no counterpart in
    this sequential model; [calls] records the calls made so far, oldest
    first. *)
Record endpointGitFinder := mkFinder {
  gitConfig : gmap string string;
  gitEnv : option config.Environment;
  gitProtocol : string;
  aliases : gmap string string;
  urlAccess : gmap string AccessMode;
  urlConfig : config.URLConfig;
  calls : list Call
}.

Definition set_gitConfig (f : gmap string string -> gmap string string)
    (e : endpointGitFinder) : endpointGitFinder :=
  mkFinder (f (gitConfig e)) (gitEnv e) (gitProtocol e) (aliases e)
           (urlAccess e) (urlConfig e) (calls e).

Definition set_urlAccess (f : gmap string AccessMode -> gmap string AccessMode)
    (e : endpointGitFinder) : endpointGitFinder :=
  mkFinder (gitConfig e) (gitEnv e) (gitProtocol e) (aliases e)
           (f (urlAccess e)) (urlConfig e) (calls e).

Definition record_call (c : Call) (e : endpointGitFinder) : endpointGitFinder :=
  mkFinder (gitConfig e) (gitEnv e) (gitProtocol e) (aliases e)
           (urlAccess e) (urlConfig e) (calls e ++ [c]).

(** Methods that mutate the finder are computations in a state monad. *)
Definition M (A : Type) : Type := endpointGitFinder -> A * endpointGitFinder.

#[export] Instance M_ret : MRet M := fun A (a : A) e => (a, e).
#[export] Instance M_bind : MBind M := fun A B (k : A -> M B) (m : M A) e =>
  let (a, e') := m e in k a e'.

Definition get : M endpointGitFinder := fun e => (e, e).
Definition modify (f : endpointGitFinder -> endpointGitFinder) : M unit :=
  fun e => (tt, f e).
Definition call (c : Call) : M unit := modify (record_call c).

Section Finder.

Context {N : url.Net} {L : lfshttp.Lib} {G : git.Lib}.


Definition endpointFromGitUrl (u : url.URL) (e : endpointGitFinder) : lfshttp.Endpoint :=
  lfshttp.of_url (url.String (url.with_Scheme u (gitProtocol e))).

Definition NewEndpoint (e : endpointGitFinder) (operation rawurl : string)
    : lfshttp.Endpoint :=
  let rawurl := ReplaceUrlAlias (aliases e) rawurl in
  if strings.HasPrefix rawurl "/" then lfshttp.EndpointFromLocalPath rawurl
  else
    match url.Parse rawurl with
    | None => lfshttp.EndpointFromBareSshUrl rawurl
    | Some u =>
        let scheme := url.Scheme u in
        if String.eqb scheme "ssh" then lfshttp.EndpointFromSshUrl u
        else if String.eqb scheme "http" || String.eqb scheme "https"
        then lfshttp.EndpointFromHttpUrl u
        else if String.eqb scheme "git" then endpointFromGitUrl u e
        else if String.eqb scheme "" then lfshttp.EndpointFromBareSshUrl (url.String u)
        else if strings.HasPrefix rawurl (scheme ++ "::") then lfshttp.of_url rawurl
        else lfshttp.EndpointFromBareSshUrl (url.String u)
    end.

Definition NewEndpointFromCloneURL (e : endpointGitFinder)
    (operation rawurl : string) : lfshttp.Endpoint :=
  let ep := NewEndpoint e operation rawurl in
  if String.eqb (lfshttp.Url ep) lfshttp.UrlUnknown then ep
  else
    let ep :=
      if strings.HasSuffix rawurl "/"
      then lfshttp.with_Url ep (strings.take (String.length rawurl - 1) rawurl)
      else ep in
    if String.eqb (path.Ext (lfshttp.Url ep)) ".git"
    then lfshttp.with_Url ep (lfshttp.Url ep ++ "/info/lfs")
    else lfshttp.with_Url ep (lfshttp.Url ep ++ ".git/info/lfs").

Definition GitRemoteURL (e : endpointGitFinder) (remote : string)
    (forpush : bool) : string :=
  let from_env :=
    match gitEnv e with
    | Some env =>
        match (if forpush then config.Get env ("remote." ++ remote ++ ".pushurl")
               else None) with
        | Some u => Some u
        | None => config.Get env ("remote." ++ remote ++ ".url")
        end
    | None => None
    end in
  match from_env with
  | Some u => u
  | None => if git.ValidateRemote remote then remote else ""
  end.

Definition RemoteEndpoint (e : endpointGitFinder) (operation remote : string)
    : lfshttp.Endpoint :=
  match gitEnv e with
  | None => lfshttp.zero
  | Some env =>
      let remote := if (String.length remote =? 0)%nat then defaultRemote else remote in
      match (if String.eqb operation "upload"
             then config.Get env ("remote." ++ remote ++ ".lfspushurl")
             else None) with
      | Some u => NewEndpoint e operation u
      | None =>
          match config.Get env ("remote." ++ remote ++ ".lfsurl") with
          | Some u => NewEndpoint e operation u
          | None =>
              let u := GitRemoteURL e remote (String.eqb operation "upload") in
              if negb (String.eqb u "") then NewEndpointFromCloneURL e operation u
              else lfshttp.zero
          end
      end
  end.

Definition getEndpoint (e : endpointGitFinder) (operation remote : string)
    : lfshttp.Endpoint :=
  match gitEnv e with
  | None => lfshttp.zero
  | Some env =>
      match (if String.eqb operation "upload" then config.Get env "lfs.pushurl"
             else None) with
      | Some u => NewEndpoint e operation u
      | None =>
          match config.Get env "lfs.url" with
          | Some u => NewEndpoint e operation u
          | None =>
              let fallback := RemoteEndpoint e operation defaultRemote in
              if (0 <? String.length remote)%nat && negb (String.eqb remote defaultRemote)
              then
                let ep := RemoteEndpoint e operation remote in
                if (0 <? String.length (lfshttp.Url ep))%nat then ep else fallback
              else fallback
          end
      end
  end.

Definition Endpoint (e : endpointGitFinder) (operation remote : string)
    : lfshttp.Endpoint :=
  lfshttp.with_Operation (getEndpoint e operation remote) operation.

Definition urlWithoutAuth (rawurl : string) : M string :=
  if negb (strings.Contains rawurl "@") then mret rawurl
  else
    match url.Parse rawurl with
    | None => call (StderrParseError rawurl) ;; mret rawurl
    | Some u => mret (url.String (url.with_User u None))
    end.

Definition fetchGitAccess (rawurl : string) : M AccessMode :=
  e ← get;
  call (URLConfigGet "lfs" rawurl "access") ;;
  let v := fst (config.URLConfig_Get (urlConfig e) "lfs" rawurl "access") in
  if (0 <? String.length v)%nat then
    let access := strings.ToLower v in
    if String.eqb access PrivateAccess then mret BasicAccess else mret access
  else mret NoneAccess.

(** [e.urlAccess[k]] as an expression: the zero value for an absent key. *)
Definition urlAccess_index (e : endpointGitFinder) (k : string) : AccessMode :=
  default emptyAccess (urlAccess e !! k).

Definition AccessFor (rawurl : string) : M Access :=
  accessurl ← urlWithoutAuth rawurl;
  e ← get;
  match gitEnv e with
  | None => mret (mkAccess NoneAccess accessurl)
  | Some _ =>
      match urlAccess e !! accessurl with
      | Some cached => mret (mkAccess cached accessurl)
      | None =>
          m ← fetchGitAccess accessurl;
          modify (set_urlAccess (insert accessurl m)) ;;
          e' ← get;
          mret (mkAccess (urlAccess_index e' accessurl) accessurl)
      end
  end.

Definition SetAccess (access : Access) : M unit :=
  let key := "lfs." ++ url access ++ ".access" in
  call (Tracerx ("setting repository access to " ++ Mode access)) ;;
  if String.eqb (Mode access) emptyAccess || String.eqb (Mode access) NoneAccess
  then
    call (UnsetLocalKey key) ;;
    modify (set_gitConfig (delete key)) ;;
    modify (set_urlAccess (insert (url access) NoneAccess))
  else
    call (SetLocal key (Mode access)) ;;
    modify (set_gitConfig (insert key (Mode access))) ;;
    modify (set_urlAccess (insert (url access) (Mode access))).

Definition GitProtocol (e : endpointGitFinder) : string := gitProtocol e.

End Finder.

(** [NewEndpointFinder] for a non-nil context whose [GitConfig()] is
    [cfg] and whose [GitEnv()] is [env]; [newURLConfig] stands for
    [config.NewURLConfig].  The result is [None] where the Go code panics:
    on a nil environment ([e.gitEnv.Get] is called unguarded) and in
    [storeAlias]. *)
Definition NewEndpointFinder (cfg : gmap string string)
    (env : option config.Environment)
    (newURLConfig : option config.Environment -> config.URLConfig)
    : option endpointGitFinder :=
  match env with
  | None => None
  | Some genv =>
      let proto := default "https" (config.Get genv "lfs.gitprotocol") in
      match initAliases ∅ (config.All genv) with
      | Some al => Some (mkFinder cfg env proto al ∅ (newURLConfig env) [])
      | None => None
      end
  end.

(** ** A model of net/url

    [GoURL.Parse] follows [url.Parse] ([parse], [getScheme],
    [parseAuthority], [parseHost], [validUserinfo], [validOptionalPort]) and
    [GoURL.String] follows the [String] method of [URL].  The model covers
    URLs written without percent-escapes and without bytes that net/url
    escapes: the decoding of [%XX] in [Parse], the encoding in [String] and
    the IPv6 zone handling are left out, and a URL keeps no [OmitHost] flag
    (a scheme followed by a rooted path and no authority is serialised with
    "//").  It is used to run the finder on the concrete URLs below; the
    general properties hold for every implementation of [url.Net]. *)
Module GoURL.

Definition between (lo hi : nat) (c : ascii) : bool :=
  ((lo <=? nat_of_ascii c) && (nat_of_ascii c <=? hi))%nat.

Definition is_alpha (c : ascii) : bool := between 97 122 c || between 65 90 c.
Definition is_digit (c : ascii) : bool := between 48 57 c.

Definition byte_in (c : ascii) (set : string) : bool :=
  existsb (Ascii.eqb c) (list_ascii_of_string set).

(** [strings.Cut(s, sep)] for a one-byte separator. *)
Fixpoint cut (sep : ascii) (s : string) : string * string * bool :=
  match s with
  | EmptyString => ("", "", false)
  | String c s' =>
      if Ascii.eqb c sep then ("", s', true)
      else let '(before, after, found) := cut sep s' in (String c before, after, found)
  end.

Fixpoint count (sep : ascii) (s : string) : nat :=
  match s with
  | EmptyString => 0
  | String c s' => (if Ascii.eqb c sep then 1 else 0) + count sep s'
  end.

(** [strings.Index] and [strings.LastIndex] for a one-byte separator;
    [None] is the result [-1]. *)
Fixpoint index (sep : ascii) (s : string) : option nat :=
  match s with
  | EmptyString => None
  | String c s' => if Ascii.eqb c sep then Some 0 else S <$> index sep s'
  end.

Fixpoint last_index (sep : ascii) (s : string) : option nat :=
  match s with
  | EmptyString => None
  | String c s' =>
      match last_index sep s' with
      | Some i => Some (S i)
      | None => if Ascii.eqb c sep then Some 0 else None
      end
  end.

Definition stringContainsCTLByte (s : string) : bool :=
  existsb (fun c => (nat_of_ascii c <? 32)%nat || (nat_of_ascii c =? 127)%nat)
          (list_ascii_of_string s).

(** [getScheme]: [None] is the error "missing protocol scheme". *)
Fixpoint getScheme_at (i : nat) (s rawURL : string) : option (string * string) :=
  match s with
  | EmptyString => Some ("", rawURL)
  | String c s' =>
      if is_alpha c then getScheme_at (S i) s' rawURL
      else if is_digit c || byte_in c "+-." then
        if (i =? 0)%nat then Some ("", rawURL) else getScheme_at (S i) s' rawURL
      else if Ascii.eqb c ":" then
        if (i =? 0)%nat then None else Some (strings.take i rawURL, s')
      else Some ("", rawURL)
  end.

Definition getScheme (rawURL : string) : option (string * string) :=
  getScheme_at 0 rawURL rawURL.

Definition validOptionalPort (port : string) : bool :=
  match port with
  | EmptyString => true
  | String c rest => Ascii.eqb c ":" && forallb is_digit (list_ascii_of_string rest)
  end.

Definition validUserinfo (s : string) : bool :=
  forallb (fun c => is_alpha c || is_digit c || byte_in c "-._:~!$&'()*+,;=%@")
          (list_ascii_of_string s).

Definition parseHost (host : string) : option string :=
  if strings.HasPrefix host "[" then
    match last_index "]" host with
    | None => None
    | Some i => if validOptionalPort (strings.drop (S i) host) then Some host else None
    end
  else
    match last_index ":" host with
    | Some i => if validOptionalPort (strings.drop i host) then Some host else None
    | None => Some host
    end.

Definition parseAuthority (authority : string) : option (option url.Userinfo * string) :=
  match last_index "@" authority with
  | None => host ← parseHost authority; Some (None, host)
  | Some i =>
      host ← parseHost (strings.drop (S i) authority);
      let userinfo := strings.take i authority in
      if negb (validUserinfo userinfo) then None
      else if negb (strings.Contains userinfo ":")
      then Some (Some (url.mkUserinfo userinfo "" false), host)
      else let '(username, password, _) := cut ":" userinfo in
           Some (Some (url.mkUserinfo username password true), host)
  end.

(** [parse(rawURL, viaRequest = false)] *)
Definition parse (rawURL : string) : option url.URL :=
  if stringContainsCTLByte rawURL then None
  else if String.eqb rawURL "*" then Some (url.mkURL "" "" None "" "*" false "" "")
  else
    '(scheme, rest) ← getScheme rawURL;
    let scheme := strings.ToLower scheme in
    let '(rest, rawquery, forcequery) :=
      if strings.HasSuffix rest "?" && (count "?" rest =? 1)%nat
      then (strings.take (String.length rest - 1) rest, "", true)
      else let '(before, after, _) := cut "?" rest in (before, after, false) in
    if negb (strings.HasPrefix rest "/") && negb (String.eqb scheme "")
    then Some (url.mkURL scheme rest None "" "" forcequery rawquery "")
    else if negb (strings.HasPrefix rest "/")
            && strings.Contains (fst (fst (cut "/" rest))) ":"
    then None
    else if (negb (String.eqb scheme "") || negb (strings.HasPrefix rest "///"))
            && strings.HasPrefix rest "//"
    then
      let authority := strings.drop 2 rest in
      let '(authority, rest) :=
        match index "/" authority with
        | Some i => (strings.take i authority, strings.drop i authority)
        | None => (authority, "")
        end in
      '(user, host) ← parseAuthority authority;
      Some (url.mkURL scheme "" user host rest forcequery rawquery "")
    else Some (url.mkURL scheme "" None "" rest forcequery rawquery "").

Definition Parse (rawURL : string) : option url.URL :=
  let '(u, frag, _) := cut "#" rawURL in
  r ← parse u;
  Some (url.mkURL (url.Scheme r) (url.Opaque r) (url.User r) (url.Host r) (url.Path r)
              (url.ForceQuery r) (url.RawQuery r) frag).

Definition Userinfo_String (ui : url.Userinfo) : string :=
  url.username ui ++ (if url.passwordSet ui then ":" ++ url.password ui else "").

Definition nonempty (s : string) : bool := negb (String.eqb s "").

Definition String (u : url.URL) : string :=
  let buf := if nonempty (url.Scheme u) then url.Scheme u ++ ":" else "" in
  let buf :=
    if nonempty (url.Opaque u) then buf ++ url.Opaque u
    else
      let has_user := bool_decide (is_Some (url.User u)) in
      let buf :=
        if nonempty (url.Scheme u) || nonempty (url.Host u) || has_user then
          buf ++ (if nonempty (url.Host u) || nonempty (url.Path u) || has_user then "//" else "")
              ++ match url.User u with
                 | Some ui => Userinfo_String ui ++ "@"
                 | None => ""
                 end
              ++ url.Host u
        else buf in
      let buf :=
        if nonempty (url.Path u) && negb (strings.HasPrefix (url.Path u) "/") && nonempty (url.Host u)
        then buf ++ "/" else buf in
      let buf :=
        if String.eqb buf "" && strings.Contains (fst (fst (cut "/" (url.Path u)))) ":"
        then "./" else buf in
      buf ++ url.Path u in
  let buf :=
    if url.ForceQuery u || nonempty (url.RawQuery u) then buf ++ "?" ++ url.RawQuery u else buf in
  if nonempty (url.Fragment u) then buf ++ "#" ++ url.Fragment u else buf.

Definition net : url.Net := {| url.Parse := Parse; url.String := String |}.

End GoURL.

(** ** Sample collaborators

    Instances used to run the finder on concrete inputs.  The lfshttp
    constructors are stand-ins: each writes its kind in the SSH fields so
    that the results of different constructors differ. *)
Module Sample.

Definition lfshttp_lib : lfshttp.Lib := {|
  lfshttp.UrlUnknown := "<unknown>";
  lfshttp.EndpointFromLocalPath p := lfshttp.mkEndpoint ("file://" ++ p) "" "" "" "";
  lfshttp.EndpointFromBareSshUrl r := lfshttp.mkEndpoint r "bare-ssh" "" "" "";
  lfshttp.EndpointFromSshUrl u :=
    lfshttp.mkEndpoint (GoURL.String u) (url.Host u) (url.Path u) "" "";
  lfshttp.EndpointFromHttpUrl u := lfshttp.of_url (GoURL.String u)
|}.

Definition git_lib : git.Lib := {| git.ValidateRemote _ := false |}.

(** An environment given by an association list of keys and values. *)
Definition env_of (kvs : list (string * string)) : config.Environment :=
  config.mkEnvironment
    (fun k => snd <$> List.find (fun kv => String.eqb (fst kv) k) kvs)
    (List.map (fun kv => (fst kv, [snd kv])) kvs).

(** A URL configuration that answers every lookup with [v]. *)
Definition urlconfig_const (v : string) : config.URLConfig :=
  config.mkURLConfig (fun _ _ _ => (v, negb (String.eqb v ""))).

Definition finder (env : option config.Environment) (al : gmap string string)
    (uc : config.URLConfig) : endpointGitFinder :=
  mkFinder ∅ env "https" al ∅ uc [].

(** A finder without environment whose cache holds "basic" for a URL. *)
Definition cached_nil_finder : endpointGitFinder :=
  mkFinder ∅ None "https" ∅ {[ "https://h/r" := BasicAccess ]} (urlconfig_const "ntlm") [].

(** A finder without environment, aliases or configured access. *)
Definition bare_finder : endpointGitFinder := finder None ∅ (urlconfig_const "").

(** The environment of the precedence scenario: [lfs.url] unset, an explicit
    LFS URL and a plain URL for the remote "origin". *)
Definition origin_env : config.Environment :=
  env_of [("remote.origin.lfsurl", "https://a/api");
          ("remote.origin.url", "https://a/repo.git")].

Definition origin_finder : endpointGitFinder :=
  finder (Some origin_env) ∅ (urlconfig_const "").

(** The same environment with push URLs added, globally and for "origin". *)
Definition origin_push_env : config.Environment :=
  env_of [("lfs.pushurl", "https://push/api");
          ("remote.origin.lfspushurl", "https://push/origin");
          ("remote.origin.pushurl", "https://push/repo.git");
          ("remote.origin.lfsurl", "https://a/api");
          ("remote.origin.url", "https://a/repo.git")].

Definition origin_push_finder : endpointGitFinder :=
  finder (Some origin_push_env) ∅ (urlconfig_const "").

(** An environment without any key, and a validator of remotes that accepts
    exactly the string "https://h/r.git". *)
Definition no_env : config.Environment := env_of [].

Definition git_lib_url : git.Lib :=
  {| git.ValidateRemote r := String.eqb r "https://h/r.git" |}.

(** Finders whose configuration answers the access lookup with "private",
    with "ntlm" and with the value "bogus". *)
Definition private_finder : endpointGitFinder :=
  finder (Some origin_env) ∅ (urlconfig_const "private").

Definition ntlm_finder : endpointGitFinder :=
  finder (Some origin_env) ∅ (urlconfig_const "NTLM").

(** The same with the value written in capitals. *)
Definition capital_private_finder : endpointGitFinder :=
  finder (Some origin_env) ∅ (urlconfig_const "PRIVATE").

Definition bogus_finder : endpointGitFinder :=
  finder (Some origin_env) ∅ (urlconfig_const "bogus").

End Sample.


(** The spec's selection: among the configured prefixes that are literal
    prefixes of the URL, one of greatest length, ties going to the
    lexicographically greater. *)
Definition alias_matches (aliases : gmap string string) (rawurl p : string) : Prop :=
  is_Some (aliases !! p) /\ strings.HasPrefix rawurl p = true.

Definition alias_selected (aliases : gmap string string) (rawurl p : string) : Prop :=
  alias_matches aliases rawurl p /\
  forall q, alias_matches aliases rawurl q ->
    String.length q < String.length p \/
    (String.length q = String.length p /\ String.leb q p = true).

(** An iteration order of the map: its keys, each once, in any order. *)
Definition iteration_order (aliases : gmap string string) (order : list string) : Prop :=
  order ≡ₚ (map_to_list aliases).*1.


(** ** Concrete inputs *)

(** The table built from the single entry [url.X.insteadof = ""]. *)
Definition empty_alias_table : gmap string string := {[ "" := "X" ]}.

Definition two_alias_table : gmap string string := {[ "a" := "X"; "ab" := "Y" ]}.


(** ** The behaviour the specification describes

    The definitions below follow the words of the specification; the
    properties compare them with the code above. *)

(** The suffix decision of the clone-URL adapter: "/info/lfs" after a final
    path extension ".git", ".git/info/lfs" otherwise. *)
Definition lfs_suffix (u : string) : string :=
  if String.eqb (path.Ext u) ".git" then "/info/lfs" else ".git/info/lfs".


Section Cascade.

Context {N : url.Net} {L : lfshttp.Lib} {G : git.Lib}.





End Cascade.


(** The credential-stripped URL computed by [urlWithoutAuth], without the
    diagnostic. *)
Definition stripped_url {N : url.Net} (rawurl : string) : string :=
  if strings.Contains rawurl "@" then
    match url.Parse rawurl with
    | None => rawurl
    | Some u => url.String (url.with_User u None)
    end
  else rawurl.

(** The mode read from configuration for a URL: the configured value
    lower-cased, "private" normalised to "basic", "none" when nothing is
    configured. *)
Definition configured_mode (uc : config.URLConfig) (k : string) : AccessMode :=
  let v := fst (config.URLConfig_Get uc "lfs" k "access") in
  if String.eqb v "" then NoneAccess
  else if String.eqb (strings.ToLower v) "private" then BasicAccess
  else strings.ToLower v.

(** The configuration reads among the recorded calls. *)
Definition config_reads (e : endpointGitFinder) : list Call :=
  List.filter is_config_read (calls e).

(** The values of the enumeration of access modes. *)
Definition enumerated (m : AccessMode) : Prop :=
  m ∈ [NoneAccess; BasicAccess; PrivateAccess; NegotiateAccess; NTLMAccess; emptyAccess].


(** An [Access] with mode "none" for a URL without credentials. *)
Definition none_access : Access := mkAccess NoneAccess "https://h/r".


(** ** Finders that differ in one field *)

Definition set_aliases (al : gmap string string) (e : endpointGitFinder)
    : endpointGitFinder :=
  mkFinder (gitConfig e) (gitEnv e) (gitProtocol e) al
           (urlAccess e) (urlConfig e) (calls e).

Definition set_gitEnv (env : option config.Environment) (e : endpointGitFinder)
    : endpointGitFinder :=
  mkFinder (gitConfig e) env (gitProtocol e) (aliases e)
           (urlAccess e) (urlConfig e) (calls e).

(** The configuration keys that resolving an endpoint for an operation other
    than upload can read, for a given remote. *)
Definition download_keys (remote : string) : list string :=
  ["lfs.url";
   "remote." ++ remote ++ ".lfsurl"; "remote." ++ remote ++ ".url";
   "remote." ++ defaultRemote ++ ".lfsurl"; "remote." ++ defaultRemote ++ ".url"].

(** The calls [AccessFor] may make: a diagnostic and a configuration read. *)
Definition is_read_or_diagnostic (c : Call) : bool :=
  match c with
  | URLConfigGet _ _ _ | StderrParseError _ => true
  | _ => false
  end.

(** The local key under which [SetAccess] persists the mode of a URL. *)
Definition access_key (u : string) : string := "lfs." ++ u ++ ".access".



(** What [SetAccess] leaves in the cache and in the local configuration. *)
Definition stored_mode (a : Access) : AccessMode :=
  if String.eqb (mode a) emptyAccess then NoneAccess else mode a.

Definition persist (a : Access) (cfg : gmap string string) : gmap string string :=
  if String.eqb (mode a) emptyAccess || String.eqb (mode a) NoneAccess
  then delete (access_key (url a)) cfg
  else <[access_key (url a) := mode a]> cfg.

(** The write that [SetAccess] asks of the local configuration. *)
Definition persist_call (a : Access) : Call :=
  if String.eqb (mode a) emptyAccess || String.eqb (mode a) NoneAccess
  then UnsetLocalKey (access_key (url a))
  else SetLocal (access_key (url a)) (mode a).


(** An [Access] with mode "ntlm" for a URL without credentials. *)
Definition ntlm_access : Access := mkAccess NTLMAccess "https://h/r".

Definition basic_access_other : Access := mkAccess BasicAccess "https://h/other".


(** The cache holds no empty sentinel. *)
Definition cache_without_empty (e : endpointGitFinder) : Prop :=
  forall k m, urlAccess e !! k = Some m -> m <> emptyAccess.

(** The keys that only an upload reads, for a given remote. *)
Definition upload_keys (remote : string) : list string :=
  ["lfs.pushurl";
   "remote." ++ remote ++ ".lfspushurl"; "remote." ++ remote ++ ".pushurl";
   "remote." ++ defaultRemote ++ ".lfspushurl"; "remote." ++ defaultRemote ++ ".pushurl"].


(** * Properties *)

(** ** Strings *)

Lemma app_String (c : ascii) (p t : string) : String c p ++ t = String c (p ++ t).
Proof. reflexivity. Qed.

Lemma app_empty (t : string) : "" ++ t = t.
Proof. reflexivity. Qed.

Lemma HasPrefix_app (s p : string) :
  strings.HasPrefix s p = true <-> exists t, s = p ++ t.
Proof.
  unfold strings.HasPrefix. revert s.
  induction p as [|c p IH]; intros s.
  - split; [intros _; exists s; reflexivity | intros _; destruct s; reflexivity].
  - destruct s as [|d s]; simpl.
    + split; [discriminate | intros [t Ht]; discriminate].
    + destruct (ascii_dec c d) as [->|Hne].
      * split.
        -- intros [t ->]%IH. exists t. reflexivity.
        -- intros [t Ht]. apply IH. exists t. rewrite app_String in Ht. congruence.
      * split; [discriminate | intros [t Ht]; rewrite app_String in Ht; congruence].
Qed.

Lemma length_app (p t : string) :
  String.length (p ++ t) = String.length p + String.length t.
Proof. induction p as [|c p IH]; [reflexivity | rewrite app_String; simpl; lia]. Qed.

Lemma HasPrefix_length (s p : string) :
  strings.HasPrefix s p = true -> String.length p <= String.length s.
Proof.
  intros [t ->]%HasPrefix_app. rewrite length_app. lia.
Qed.

Lemma drop_app (p t : string) : strings.drop (String.length p) (p ++ t) = t.
Proof. induction p as [|c p IH]; [reflexivity | rewrite app_String; exact IH]. Qed.

Lemma ascii_compare_refl (c : ascii) : Ascii.compare c c = Eq.
Proof. unfold Ascii.compare. apply N.compare_refl. Qed.

(** Two prefixes of one string are ordered by [<] exactly as their lengths. *)
Lemma lt_prefixes (s p q : string) :
  strings.HasPrefix s p = true -> strings.HasPrefix s q = true ->
  strings.lt p q = true <-> String.length p < String.length q.
Proof.
  unfold strings.HasPrefix, strings.lt, String.ltb. revert p q.
  induction s as [|c s IH]; intros p q Hp Hq.
  - destruct p, q; simpl in *; try discriminate. split; [discriminate | lia].
  - destruct p as [|a p], q as [|b q]; simpl in *.
    + split; [discriminate | lia].
    + split; [intros _; lia | reflexivity].
    + split; [discriminate | lia].
    + destruct (ascii_dec a c) as [->|]; [|discriminate].
      destruct (ascii_dec b c) as [->|]; [|discriminate].
      rewrite ascii_compare_refl, (IH p q Hp Hq). lia.
Qed.

Lemma prefixes_same_length (s p q : string) :
  strings.HasPrefix s p = true -> strings.HasPrefix s q = true ->
  String.length p = String.length q -> p = q.
Proof.
  intros [t ->]%HasPrefix_app [t' Ht']%HasPrefix_app. revert q Ht'.
  induction p as [|a p IH]; intros [|b q] Ht' Hlen; simpl in Hlen; try discriminate; auto.
  rewrite !app_String in Ht'. injection Ht' as -> Ht'. f_equal. apply IH; auto.
Qed.

(** ** The alias table *)

Lemma iteration_order_elem (aliases : gmap string string) order k :
  iteration_order aliases order -> k ∈ order <-> is_Some (aliases !! k).
Proof.
  unfold iteration_order. intros ->.
  rewrite list_elem_of_fmap. split.
  - intros [[k' v] [-> Hin%elem_of_map_to_list]]. eauto.
  - intros [v Hv]. exists (k, v). split; [reflexivity|]. by apply elem_of_map_to_list.
Qed.

Lemma iteration_order_canonical (aliases : gmap string string) :
  iteration_order aliases (map fst (map_to_list aliases)).
Proof. unfold iteration_order. reflexivity. Qed.

(** The loop invariant of [ReplaceUrlAlias]. *)
Lemma alias_scan_invariant (rawurl : string) (keys : list string) (acc : string) :
  strings.HasPrefix rawurl acc = true ->
  let r := fold_left (alias_step rawurl) keys acc in
  strings.HasPrefix rawurl r = true /\
  String.length acc <= String.length r /\
  (forall k, k ∈ keys -> strings.HasPrefix rawurl k = true ->
             String.length k <= String.length r) /\
  (r = acc \/ r ∈ keys).
Proof.
  revert acc. induction keys as [|k keys IH]; intros acc Hacc; simpl.
  - repeat split; auto. intros k Hk. by apply elem_of_nil in Hk.
  - assert (Hstep : strings.HasPrefix rawurl (alias_step rawurl acc k) = true /\
                    String.length acc <= String.length (alias_step rawurl acc k) /\
                    (strings.HasPrefix rawurl k = true ->
                     String.length k <= String.length (alias_step rawurl acc k)) /\
                    (alias_step rawurl acc k = acc \/ alias_step rawurl acc k = k)).
    { unfold alias_step. destruct (strings.HasPrefix rawurl k) eqn:Hk; simpl.
      - destruct (strings.lt acc k) eqn:Hlt.
        + pose proof (proj1 (lt_prefixes rawurl acc k Hacc Hk) Hlt).
          repeat split; auto; lia.
        + assert (~ String.length acc < String.length k).
          { intros Hn. pose proof (proj2 (lt_prefixes rawurl acc k Hacc Hk) Hn). congruence. }
          repeat split; auto; lia.
      - repeat split; auto. discriminate. }
    destruct Hstep as (Hp & Hlen & Hk & Hor).
    destruct (IH _ Hp) as (Hp' & Hlen' & Hall & Hor').
    repeat split; auto.
    + lia.
    + intros k' [->|Hin]%elem_of_cons Hk'; [specialize (Hk Hk'); lia | auto].
    + destruct Hor' as [->|Hin]; [|right; by apply elem_of_cons; right].
      destruct Hor as [->| ->]; [by left | right; by apply elem_of_cons; left].
Qed.

Lemma longest_alias_spec (aliases : gmap string string) order rawurl :
  iteration_order aliases order ->
  let r := longest_alias order rawurl in
  strings.HasPrefix rawurl r = true /\
  (forall q, alias_matches aliases rawurl q -> String.length q <= String.length r) /\
  (r = "" \/ is_Some (aliases !! r)).
Proof.
  intros Hord. unfold longest_alias.
  destruct (alias_scan_invariant rawurl order "") as (Hp & _ & Hall & Hor).
  { apply HasPrefix_app. exists rawurl. reflexivity. }
  repeat split; auto.
  - intros q [Hq Hpre]. apply Hall; auto. by apply (iteration_order_elem aliases).
  - destruct Hor as [->|Hin]; [by left | right; by apply (iteration_order_elem aliases order)].
Qed.

(** The result of the scan does not depend on the iteration order, so
    [ReplaceUrlAlias] may fix one. *)
Lemma longest_alias_order_irrelevant (aliases : gmap string string) order1 order2 rawurl :
  iteration_order aliases order1 -> iteration_order aliases order2 ->
  longest_alias order1 rawurl = longest_alias order2 rawurl.
Proof.
  intros H1 H2.
  destruct (longest_alias_spec aliases order1 rawurl H1) as (Hp1 & Hmax1 & Hk1).
  destruct (longest_alias_spec aliases order2 rawurl H2) as (Hp2 & Hmax2 & Hk2).
  apply (prefixes_same_length rawurl); [assumption..|].
  apply Nat.le_antisymm.
  - destruct Hk1 as [->|Hk1]; [simpl; lia | apply Hmax2; by split].
  - destruct Hk2 as [->|Hk2]; [simpl; lia | apply Hmax1; by split].
Qed.

Lemma ReplaceUrlAlias_order_irrelevant (aliases : gmap string string) order rawurl :
  iteration_order aliases order ->
  ReplaceUrlAlias_in order aliases rawurl = ReplaceUrlAlias aliases rawurl.
Proof.
  intros Hord. unfold ReplaceUrlAlias, ReplaceUrlAlias_in.
  by rewrite (longest_alias_order_irrelevant aliases order _ rawurl Hord
                (iteration_order_canonical aliases)).
Qed.

Lemma string_compare_refl (s : string) : String.compare s s = Eq.
Proof. induction s as [|c s IH]; simpl; [reflexivity | by rewrite ascii_compare_refl]. Qed.

Lemma string_leb_refl (s : string) : String.leb s s = true.
Proof. unfold String.leb. by rewrite string_compare_refl. Qed.

Lemma length_zero_empty (s : string) : String.length s = 0 -> s = "".
Proof. destruct s; [reflexivity | discriminate]. Qed.

(** C1 (amended).  For every alias table, every iteration order of its keys
    and every raw URL: if a non-empty configured prefix is the selected one
    (a literal prefix of the URL of greatest length, ties to the
    lexicographically greater), [ReplaceUrlAlias] returns its replacement
    followed by the rest of the URL; such a selected prefix exists as soon as
    some non-empty configured prefix matches; and if no non-empty configured
    prefix matches, the URL is returned unchanged. *)
Theorem ReplaceUrlAlias_longest_nonempty_prefix
    (aliases : gmap string string) (order : list string) (rawurl : string) :
  iteration_order aliases order ->
  (forall p r, aliases !! p = Some r -> alias_selected aliases rawurl p -> p <> "" ->
     ReplaceUrlAlias_in order aliases rawurl = r ++ strings.drop (String.length p) rawurl)
  /\ ((exists q, alias_matches aliases rawurl q /\ q <> "") ->
      exists p, alias_selected aliases rawurl p /\ p <> "")
  /\ ((forall q, alias_matches aliases rawurl q -> q = "") ->
      ReplaceUrlAlias_in order aliases rawurl = rawurl).
Proof.
  intros Hord.
  destruct (longest_alias_spec aliases order rawurl Hord) as (Hpre & Hmax & Hkey).
  unfold ReplaceUrlAlias_in.
  set (r0 := longest_alias order rawurl) in *.
  split; [|split].
  - intros p r Hp [Hm Hsel] Hne.
    pose proof (Hmax p Hm) as Hle.
    assert (Hpos : 0 < String.length p).
    { destruct p; [congruence | simpl; lia]. }
    assert (Hr0 : alias_matches aliases rawurl r0).
    { split; [|exact Hpre]. destruct Hkey as [He|]; [|assumption].
      rewrite He in Hle. simpl in Hle. lia. }
    assert (r0 = p) as ->.
    { apply (prefixes_same_length rawurl); [exact Hpre | apply Hm |].
      destruct (Hsel r0 Hr0) as [|[? _]]; lia. }
    apply Nat.ltb_lt in Hpos. rewrite Hpos.
    unfold alias_index. rewrite Hp. reflexivity.
  - intros (q & Hq & Hne).
    pose proof (Hmax q Hq) as Hle.
    assert (Hpos : 0 < String.length q).
    { destruct q; [congruence | simpl; lia]. }
    assert (Hr0 : alias_matches aliases rawurl r0).
    { split; [|exact Hpre]. destruct Hkey as [He|]; [|assumption].
      rewrite He in Hle. simpl in Hle. lia. }
    exists r0. split.
    + split; [exact Hr0|]. intros q' Hq'.
      pose proof (Hmax q' Hq') as Hle'.
      destruct (decide (String.length q' = String.length r0)) as [Heq|]; [|left; lia].
      right. split; [exact Heq|].
      rewrite (prefixes_same_length rawurl q' r0 (proj2 Hq') Hpre Heq).
      apply string_leb_refl.
    + intros He. rewrite He in Hle. simpl in Hle. lia.
  - intros Hall.
    assert (r0 = "") as ->.
    { destruct Hkey as [|Hk]; [assumption|]. apply Hall. by split. }
    reflexivity.
Qed.

Lemma ReplaceUrlAlias_longest_nonempty_prefix_witness :
  iteration_order two_alias_table ["a"; "ab"] /\
  ((forall p r, two_alias_table !! p = Some r ->
      alias_selected two_alias_table "abc" p -> p <> "" ->
      ReplaceUrlAlias_in ["a"; "ab"] two_alias_table "abc"
      = r ++ strings.drop (String.length p) "abc")
   /\ ((exists q, alias_matches two_alias_table "abc" q /\ q <> "") ->
       exists p, alias_selected two_alias_table "abc" p /\ p <> "")
   /\ ((forall q, alias_matches two_alias_table "abc" q -> q = "") ->
       ReplaceUrlAlias_in ["a"; "ab"] two_alias_table "abc" = "abc")).
Proof.
  assert (Hord : iteration_order two_alias_table ["a"; "ab"]).
  { unfold iteration_order. vm_compute. apply perm_swap. }
  split; [exact Hord|].
  apply (ReplaceUrlAlias_longest_nonempty_prefix two_alias_table ["a"; "ab"] "abc" Hord).
Defined.

(** C1, the claim as stated fails for a table holding the empty prefix: the
    entry [url.X.insteadof = ""] yields the table [{"" -> "X"}]; for the URL
    "abc" the empty prefix is the selected one, yet the URL is returned
    unchanged instead of "X" followed by "abc". *)
Lemma ReplaceUrlAlias_empty_prefix_counterexample :
  initAliases ∅ [("url.X.insteadof", [""])] = Some empty_alias_table /\
  empty_alias_table !! "" = Some "X" /\
  alias_selected empty_alias_table "abc" "" /\
  ReplaceUrlAlias empty_alias_table "abc" = "abc" /\
  ReplaceUrlAlias empty_alias_table "abc" <> "X" ++ strings.drop (String.length "") "abc".
Proof.
  split; [vm_compute; reflexivity|].
  split; [vm_compute; reflexivity|].
  split.
  - split.
    + split; [exists "X"; vm_compute; reflexivity | reflexivity].
    + intros q [[v Hv] _].
      assert (q = "") as ->.
      { unfold empty_alias_table in Hv.
        apply lookup_singleton_Some in Hv. symmetry. apply Hv. }
      right. split; reflexivity.
  - split; [vm_compute; reflexivity | vm_compute; discriminate].
Qed.

Lemma ReplaceUrlAlias_empty (rawurl : string) : ReplaceUrlAlias ∅ rawurl = rawurl.
Proof.
  unfold ReplaceUrlAlias. rewrite map_to_list_empty. reflexivity.
Qed.

(** ** The clone-URL adapter *)

Section CloneURL.

Context {N : url.Net} {L : lfshttp.Lib}.

Lemma NewEndpointFromCloneURL_unknown e operation rawurl :
  lfshttp.Url (NewEndpoint e operation rawurl) = lfshttp.UrlUnknown ->
  NewEndpointFromCloneURL e operation rawurl = NewEndpoint e operation rawurl.
Proof.
  intros Hu. unfold NewEndpointFromCloneURL. rewrite Hu, String.eqb_refl. reflexivity.
Qed.

(** Without a trailing slash on the raw URL the suffix is appended to the
    resolved URL. *)
Lemma NewEndpointFromCloneURL_no_slash e operation rawurl :
  lfshttp.Url (NewEndpoint e operation rawurl) <> lfshttp.UrlUnknown ->
  strings.HasSuffix rawurl "/" = false ->
  lfshttp.Url (NewEndpointFromCloneURL e operation rawurl)
  = lfshttp.Url (NewEndpoint e operation rawurl)
    ++ lfs_suffix (lfshttp.Url (NewEndpoint e operation rawurl)).
Proof.
  intros Hu Hs. unfold NewEndpointFromCloneURL, lfs_suffix.
  apply String.eqb_neq in Hu. rewrite Hu, Hs.
  destruct (String.eqb (path.Ext _) ".git"); reflexivity.
Qed.

(** With a trailing slash on the raw URL the resolved URL is replaced by the
    raw URL without its last byte, whatever the resolution produced. *)
Lemma NewEndpointFromCloneURL_slash e operation rawurl :
  lfshttp.Url (NewEndpoint e operation rawurl) <> lfshttp.UrlUnknown ->
  strings.HasSuffix rawurl "/" = true ->
  lfshttp.Url (NewEndpointFromCloneURL e operation rawurl)
  = strings.take (String.length rawurl - 1) rawurl
    ++ lfs_suffix (strings.take (String.length rawurl - 1) rawurl).
Proof.
  intros Hu Hs. unfold NewEndpointFromCloneURL, lfs_suffix.
  apply String.eqb_neq in Hu. rewrite Hu, Hs. simpl.
  destruct (String.eqb (path.Ext _) ".git"); reflexivity.
Qed.

End CloneURL.

Lemma Parse_git_h_r_slash :
  GoURL.Parse "git://h/r/" = Some (url.mkURL "git" "" None "h" "/r/" false "" "").
Proof. vm_compute. reflexivity. Qed.

(** C2, evaluated at the raw URL "git://h/r/" with no alias configured and
    the default protocol "https": the resolved URL is "https://h/r/", but the
    endpoint of the clone-URL adapter is built from the raw URL, giving
    "git://h/r.git/info/lfs" where the resolved URL with the slash stripped
    and the suffix added is "https://h/r.git/info/lfs". *)
Theorem NewEndpointFromCloneURL_drops_resolved_url
    (L : lfshttp.Lib) (e : endpointGitFinder) (operation : string) :
  aliases e = ∅ ->
  gitProtocol e = "https" ->
  lfshttp.UrlUnknown <> "https://h/r/" ->
  lfshttp.Url (NewEndpoint (N := GoURL.net) e operation "git://h/r/") = "https://h/r/" /\
  lfshttp.Url (NewEndpointFromCloneURL (N := GoURL.net) e operation "git://h/r/")
  = "git://h/r.git/info/lfs" /\
  lfshttp.Url (NewEndpointFromCloneURL (N := GoURL.net) e operation "git://h/r/")
  <> "https://h/r" ++ lfs_suffix "https://h/r".
Proof.
  intros Hal Hproto Hunk.
  assert (Hnew : lfshttp.Url (NewEndpoint (N := GoURL.net) e operation "git://h/r/")
                 = "https://h/r/").
  { unfold NewEndpoint. rewrite Hal, ReplaceUrlAlias_empty.
    change (url.Parse "git://h/r/") with (GoURL.Parse "git://h/r/").
    rewrite Parse_git_h_r_slash. simpl.
    unfold endpointFromGitUrl. rewrite Hproto. vm_compute. reflexivity. }
  assert (Hclone : lfshttp.Url (NewEndpointFromCloneURL (N := GoURL.net) e operation "git://h/r/")
                   = "git://h/r.git/info/lfs").
  { rewrite NewEndpointFromCloneURL_slash.
    - vm_compute. reflexivity.
    - rewrite Hnew. congruence.
    - vm_compute. reflexivity. }
  split; [exact Hnew|]. split; [exact Hclone|].
  rewrite Hclone. vm_compute. discriminate.
Qed.

Lemma NewEndpointFromCloneURL_drops_resolved_url_witness :
  aliases Sample.bare_finder = ∅ /\ gitProtocol Sample.bare_finder = "https" /\
  lfshttp.UrlUnknown (Lib := Sample.lfshttp_lib) <> "https://h/r/" /\
  lfshttp.Url (NewEndpoint (N := GoURL.net) (L := Sample.lfshttp_lib) Sample.bare_finder "download" "git://h/r/")
  = "https://h/r/" /\
  lfshttp.Url (NewEndpointFromCloneURL (N := GoURL.net) (L := Sample.lfshttp_lib) Sample.bare_finder "download" "git://h/r/")
  = "git://h/r.git/info/lfs" /\
  lfshttp.Url (NewEndpointFromCloneURL (N := GoURL.net) (L := Sample.lfshttp_lib) Sample.bare_finder "download" "git://h/r/")
  <> "https://h/r" ++ lfs_suffix "https://h/r".
Proof.
  assert (H1 : aliases Sample.bare_finder = ∅) by reflexivity.
  assert (H2 : gitProtocol Sample.bare_finder = "https") by reflexivity.
  assert (H3 : lfshttp.UrlUnknown (Lib := Sample.lfshttp_lib) <> "https://h/r/")
    by (vm_compute; discriminate).
  split; [exact H1|]. split; [exact H2|]. split; [exact H3|].
  exact (NewEndpointFromCloneURL_drops_resolved_url
           Sample.lfshttp_lib Sample.bare_finder "download" H1 H2 H3).
Defined.

(** ** The resolution cascade *)

Section CascadeProperties.

Context {N : url.Net} {L : lfshttp.Lib} {G : git.Lib}.

Lemma eqb_empty_length (s : string) :
  (String.length s =? 0)%nat = String.eqb s "".
Proof. destruct s; reflexivity. Qed.

Lemma ltb_length_nonempty (s : string) :
  (0 <? String.length s)%nat = negb (String.eqb s "").
Proof. destruct s; reflexivity. Qed.



End CascadeProperties.



(** ** The scheme classifier *)

Lemma Parse_https_h_r_git :
  GoURL.Parse "https://h/r.git" = Some (url.mkURL "https" "" None "h" "/r.git" false "" "").
Proof. vm_compute. reflexivity. Qed.

Lemma Parse_git_at_h_r_git : GoURL.Parse "git@h:r.git" = None.
Proof. vm_compute. reflexivity. Qed.

Lemma Parse_git_h_r :
  GoURL.Parse "git://h/r" = Some (url.mkURL "git" "" None "h" "/r" false "" "").
Proof. vm_compute. reflexivity. Qed.

Lemma Parse_h_r_git :
  GoURL.Parse "h:r.git" = Some (url.mkURL "h" "r.git" None "" "" false "" "").
Proof. vm_compute. reflexivity. Qed.

Lemma Parse_myhelper :
  GoURL.Parse "myhelper::h/r" = Some (url.mkURL "myhelper" ":h/r" None "" "" false "" "").
Proof. vm_compute. reflexivity. Qed.

(** [NewEndpoint] on a finder without aliases, as a function of the parse
    result. *)
Lemma NewEndpoint_no_alias {N : url.Net} {L : lfshttp.Lib} e operation rawurl :
  aliases e = ∅ ->
  strings.HasPrefix rawurl "/" = false ->
  NewEndpoint e operation rawurl =
  match url.Parse rawurl with
  | None => lfshttp.EndpointFromBareSshUrl rawurl
  | Some u =>
      if String.eqb (url.Scheme u) "ssh" then lfshttp.EndpointFromSshUrl u
      else if String.eqb (url.Scheme u) "http" || String.eqb (url.Scheme u) "https"
      then lfshttp.EndpointFromHttpUrl u
      else if String.eqb (url.Scheme u) "git" then endpointFromGitUrl u e
      else if String.eqb (url.Scheme u) "" then lfshttp.EndpointFromBareSshUrl (url.String u)
      else if strings.HasPrefix rawurl (url.Scheme u ++ "::") then lfshttp.of_url rawurl
      else lfshttp.EndpointFromBareSshUrl (url.String u)
  end.
Proof.
  intros Hal Hslash. unfold NewEndpoint.
  rewrite Hal, ReplaceUrlAlias_empty, Hslash. reflexivity.
Qed.

(** C4.  On a finder without aliases, with net/url as modelled by [GoURL]:
    "https://h/r.git" goes to the HTTP constructor with a URL that
    serialises to the input unchanged; "git@h:r.git" and "h:r.git" go to the
    bare-SSH constructor; "git://h/r" yields the URL with the scheme replaced
    by the finder's protocol, "https://h/r" when that is "https";
    "myhelper::h/r" is passed through with the URL unchanged.  The finder's
    protocol is "https" unless [lfs.gitprotocol] is set. *)
Theorem NewEndpoint_scheme_classification
    (L : lfshttp.Lib) (e : endpointGitFinder) (operation : string) :
  aliases e = ∅ ->
  (exists u, NewEndpoint (N := GoURL.net) e operation "https://h/r.git"
             = lfshttp.EndpointFromHttpUrl u
             /\ url.Scheme u = "https" /\ GoURL.String u = "https://h/r.git")
  /\ NewEndpoint (N := GoURL.net) e operation "git@h:r.git"
     = lfshttp.EndpointFromBareSshUrl "git@h:r.git"
  /\ NewEndpoint (N := GoURL.net) e operation "git://h/r"
     = lfshttp.of_url (GoURL.String (url.mkURL (gitProtocol e) "" None "h" "/r" false "" ""))
  /\ (gitProtocol e = "https" ->
      NewEndpoint (N := GoURL.net) e operation "git://h/r" = lfshttp.of_url "https://h/r")
  /\ NewEndpoint (N := GoURL.net) e operation "h:r.git"
     = lfshttp.EndpointFromBareSshUrl "h:r.git"
  /\ NewEndpoint (N := GoURL.net) e operation "myhelper::h/r"
     = lfshttp.of_url "myhelper::h/r"
  /\ (forall cfg env newURLConfig e',
        NewEndpointFinder cfg (Some env) newURLConfig = Some e' ->
        gitProtocol e' = default "https" (config.Get env "lfs.gitprotocol")).
Proof.
  intros Hal.
  assert (Hgit : NewEndpoint (N := GoURL.net) e operation "git://h/r"
     = lfshttp.of_url (GoURL.String (url.mkURL (gitProtocol e) "" None "h" "/r" false "" ""))).
  { rewrite (NewEndpoint_no_alias e operation "git://h/r" Hal eq_refl).
    change (url.Parse "git://h/r") with (GoURL.Parse "git://h/r").
    rewrite Parse_git_h_r. reflexivity. }
  repeat split.
  - eexists. rewrite (NewEndpoint_no_alias e operation "https://h/r.git" Hal eq_refl).
    change (url.Parse "https://h/r.git") with (GoURL.Parse "https://h/r.git").
    rewrite Parse_https_h_r_git. simpl. repeat split.
  - rewrite (NewEndpoint_no_alias e operation "git@h:r.git" Hal eq_refl).
    change (url.Parse "git@h:r.git") with (GoURL.Parse "git@h:r.git").
    by rewrite Parse_git_at_h_r_git.
  - exact Hgit.
  - intros Hp. rewrite Hgit, Hp. reflexivity.
  - rewrite (NewEndpoint_no_alias e operation "h:r.git" Hal eq_refl).
    change (url.Parse "h:r.git") with (GoURL.Parse "h:r.git").
    by rewrite Parse_h_r_git.
  - rewrite (NewEndpoint_no_alias e operation "myhelper::h/r" Hal eq_refl).
    change (url.Parse "myhelper::h/r") with (GoURL.Parse "myhelper::h/r").
    by rewrite Parse_myhelper.
  - intros cfg env nuc e' He'. unfold NewEndpointFinder in He'.
    destruct (initAliases ∅ (config.All env)); [|discriminate].
    injection He' as <-. reflexivity.
Qed.

Lemma NewEndpoint_scheme_classification_witness :
  aliases Sample.bare_finder = ∅ /\
  lfshttp.Url (NewEndpoint (N := GoURL.net) (L := Sample.lfshttp_lib)
                 Sample.bare_finder "download" "https://h/r.git") = "https://h/r.git" /\
  NewEndpoint (N := GoURL.net) (L := Sample.lfshttp_lib) Sample.bare_finder "download" "git@h:r.git"
  = lfshttp.EndpointFromBareSshUrl (Lib := Sample.lfshttp_lib) "git@h:r.git" /\
  NewEndpoint (N := GoURL.net) (L := Sample.lfshttp_lib) Sample.bare_finder "download" "git://h/r"
  = lfshttp.of_url "https://h/r" /\
  NewEndpoint (N := GoURL.net) (L := Sample.lfshttp_lib) Sample.bare_finder "download" "h:r.git"
  = lfshttp.EndpointFromBareSshUrl (Lib := Sample.lfshttp_lib) "h:r.git" /\
  NewEndpoint (N := GoURL.net) (L := Sample.lfshttp_lib) Sample.bare_finder "download" "myhelper::h/r"
  = lfshttp.of_url "myhelper::h/r".
Proof.
  assert (Hal : aliases Sample.bare_finder = ∅) by reflexivity.
  destruct (NewEndpoint_scheme_classification Sample.lfshttp_lib Sample.bare_finder
              "download" Hal) as ((u & Hhttp & _ & Hu) & Hbare & _ & Hgit & Hhost & Hhelper & _).
  split; [exact Hal|].
  split; [rewrite Hhttp; exact Hu|].
  split; [exact Hbare|]. split; [exact (Hgit eq_refl)|].
  split; [exact Hhost | exact Hhelper].
Defined.

(** C5.  [NewEndpoint] is a total function into [lfshttp.Endpoint]; no error
    result exists.  With [r] the alias-resolved input: if [r] begins with "/"
    the result is the local-path endpoint and no parse is attempted;
    otherwise, when [url.Parse] fails the result is the bare-SSH endpoint of
    [r], and when the parsed scheme is none of ssh, http, https, git and the
    empty string, the result is the endpoint with URL [r] unchanged if [r]
    begins with the scheme followed by "::", and the bare-SSH endpoint of the
    re-serialised URL if not. *)
Theorem NewEndpoint_degrades_to_bare_ssh
    (N : url.Net) (L : lfshttp.Lib)
    (e : endpointGitFinder) (operation rawurl : string) :
  (strings.HasPrefix (ReplaceUrlAlias (aliases e) rawurl) "/" = true ->
   NewEndpoint e operation rawurl
   = lfshttp.EndpointFromLocalPath (ReplaceUrlAlias (aliases e) rawurl))
  /\
  (strings.HasPrefix (ReplaceUrlAlias (aliases e) rawurl) "/" = false ->
   (url.Parse (ReplaceUrlAlias (aliases e) rawurl) = None ->
    NewEndpoint e operation rawurl
    = lfshttp.EndpointFromBareSshUrl (ReplaceUrlAlias (aliases e) rawurl))
   /\
   (forall u, url.Parse (ReplaceUrlAlias (aliases e) rawurl) = Some u ->
      url.Scheme u ∉ ["ssh"; "http"; "https"; "git"; ""] ->
      (strings.HasPrefix (ReplaceUrlAlias (aliases e) rawurl) (url.Scheme u ++ "::") = true ->
       NewEndpoint e operation rawurl
       = lfshttp.of_url (ReplaceUrlAlias (aliases e) rawurl))
      /\
      (strings.HasPrefix (ReplaceUrlAlias (aliases e) rawurl) (url.Scheme u ++ "::") = false ->
       NewEndpoint e operation rawurl
       = lfshttp.EndpointFromBareSshUrl (url.String u)))).
Proof.
  unfold NewEndpoint. split; [intros ->; reflexivity|].
  intros ->. split.
  - intros ->. reflexivity.
  - intros u -> Hscheme.
    assert (Hne : forall s, s ∈ ["ssh"; "http"; "https"; "git"; ""] ->
                            String.eqb (url.Scheme u) s = false).
    { intros s Hs. apply String.eqb_neq. intros Heq. apply Hscheme. by rewrite Heq. }
    cbv zeta.
    rewrite !Hne by (repeat constructor).
    simpl. split; intros ->; reflexivity.
Qed.

Lemma NewEndpoint_degrades_to_bare_ssh_witness :
  strings.HasPrefix (ReplaceUrlAlias (aliases Sample.bare_finder) "h:r.git") "/" = false /\
  url.Parse (Net := GoURL.net) (ReplaceUrlAlias (aliases Sample.bare_finder) "h:r.git")
  = Some (url.mkURL "h" "r.git" None "" "" false "" "") /\
  ("h" ∉ ["ssh"; "http"; "https"; "git"; ""]) /\
  strings.HasPrefix (ReplaceUrlAlias (aliases Sample.bare_finder) "h:r.git") ("h" ++ "::") = false /\
  NewEndpoint (N := GoURL.net) (L := Sample.lfshttp_lib) Sample.bare_finder "download" "h:r.git"
  = lfshttp.EndpointFromBareSshUrl (Lib := Sample.lfshttp_lib) "h:r.git".
Proof.
  assert (H1 : strings.HasPrefix
                 (ReplaceUrlAlias (aliases Sample.bare_finder) "h:r.git") "/" = false)
    by (vm_compute; reflexivity).
  assert (H2 : url.Parse (Net := GoURL.net)
                 (ReplaceUrlAlias (aliases Sample.bare_finder) "h:r.git")
               = Some (url.mkURL "h" "r.git" None "" "" false "" ""))
    by (vm_compute; reflexivity).
  assert (H3 : "h" ∉ ["ssh"; "http"; "https"; "git"; ""]).
  { intros Hin. repeat (apply elem_of_cons in Hin as [Hin|Hin]; [discriminate|]).
    by apply elem_of_nil in Hin. }
  assert (H4 : strings.HasPrefix
                 (ReplaceUrlAlias (aliases Sample.bare_finder) "h:r.git") ("h" ++ "::") = false)
    by (vm_compute; reflexivity).
  split; [exact H1|]. split; [exact H2|]. split; [exact H3|]. split; [exact H4|].
  exact (proj2 (proj2 (proj2 (NewEndpoint_degrades_to_bare_ssh GoURL.net Sample.lfshttp_lib
                         Sample.bare_finder "download" "h:r.git") H1) _ H2 H3) H4).
Defined.

(** ** The access-mode cache *)

Section AccessCache.

Context {N : url.Net}.

Lemma urlWithoutAuth_fst rawurl e :
  fst (urlWithoutAuth rawurl e) = stripped_url rawurl.
Proof.
  unfold urlWithoutAuth, stripped_url.
  destruct (strings.Contains rawurl "@"); simpl; [|reflexivity].
  destruct (url.Parse rawurl); reflexivity.
Qed.

(** [urlWithoutAuth] changes nothing in the finder but the diagnostics. *)
Lemma urlWithoutAuth_snd rawurl e :
  snd (urlWithoutAuth rawurl e) = e \/
  snd (urlWithoutAuth rawurl e) = record_call (StderrParseError rawurl) e.
Proof.
  unfold urlWithoutAuth.
  destruct (strings.Contains rawurl "@"); simpl; [|by left].
  destruct (url.Parse rawurl); [by left | by right].
Qed.

Lemma config_reads_record_other c e :
  is_config_read c = false -> config_reads (record_call c e) = config_reads e.
Proof.
  intros Hc. unfold config_reads, record_call. simpl.
  rewrite List.filter_app. simpl. rewrite Hc. apply app_nil_r.
Qed.

Lemma urlWithoutAuth_fields rawurl e :
  gitEnv (snd (urlWithoutAuth rawurl e)) = gitEnv e /\
  urlAccess (snd (urlWithoutAuth rawurl e)) = urlAccess e /\
  urlConfig (snd (urlWithoutAuth rawurl e)) = urlConfig e /\
  gitConfig (snd (urlWithoutAuth rawurl e)) = gitConfig e /\
  config_reads (snd (urlWithoutAuth rawurl e)) = config_reads e.
Proof.
  destruct (urlWithoutAuth_snd rawurl e) as [-> | ->]; repeat split.
  by apply config_reads_record_other.
Qed.

Lemma fetchGitAccess_run k e :
  fetchGitAccess k e
  = (configured_mode (urlConfig e) k, record_call (URLConfigGet "lfs" k "access") e).
Proof.
  unfold fetchGitAccess, configured_mode, mbind, M_bind, get, call, modify. simpl.
  rewrite ltb_length_nonempty.
  destruct (String.eqb (fst (config.URLConfig_Get (urlConfig e) "lfs" k "access")) ""); simpl;
    [reflexivity|].
  unfold PrivateAccess.
  destruct (String.eqb (strings.ToLower _) "private"); reflexivity.
Qed.

(** The three paths of [AccessFor]. *)
Lemma AccessFor_nil rawurl e :
  gitEnv e = None ->
  AccessFor rawurl e
  = (mkAccess NoneAccess (stripped_url rawurl), snd (urlWithoutAuth rawurl e)).
Proof.
  intros He. unfold AccessFor, mbind, M_bind, get.
  pose proof (urlWithoutAuth_fst rawurl e) as Hf.
  destruct (urlWithoutAuth_fields rawurl e) as (Hg & _).
  destruct (urlWithoutAuth rawurl e) as [k e1]. simpl in *. subst k.
  rewrite Hg, He. reflexivity.
Qed.

Lemma AccessFor_hit rawurl e env m :
  gitEnv e = Some env ->
  urlAccess e !! stripped_url rawurl = Some m ->
  AccessFor rawurl e
  = (mkAccess m (stripped_url rawurl), snd (urlWithoutAuth rawurl e)).
Proof.
  intros He Hm. unfold AccessFor, mbind, M_bind, get.
  pose proof (urlWithoutAuth_fst rawurl e) as Hf.
  destruct (urlWithoutAuth_fields rawurl e) as (Hg & Ha & _).
  destruct (urlWithoutAuth rawurl e) as [k e1]. simpl in *. subst k.
  rewrite Hg, He, Ha, Hm. reflexivity.
Qed.

Lemma AccessFor_miss rawurl e env :
  gitEnv e = Some env ->
  urlAccess e !! stripped_url rawurl = None ->
  AccessFor rawurl e
  = (mkAccess (configured_mode (urlConfig e) (stripped_url rawurl)) (stripped_url rawurl),
     set_urlAccess (insert (stripped_url rawurl)
                           (configured_mode (urlConfig e) (stripped_url rawurl)))
       (record_call (URLConfigGet "lfs" (stripped_url rawurl) "access")
          (snd (urlWithoutAuth rawurl e)))).
Proof.
  intros He Hm. unfold AccessFor, mbind, M_bind, get.
  pose proof (urlWithoutAuth_fst rawurl e) as Hf.
  destruct (urlWithoutAuth_fields rawurl e) as (Hg & Ha & Hc & _).
  destruct (urlWithoutAuth rawurl e) as [k e1]. simpl in *. subst k.
  rewrite Hg, He, Ha, Hm, fetchGitAccess_run, Hc.
  unfold modify, mret, M_ret, urlAccess_index. simpl.
  rewrite lookup_insert_eq. reflexivity.
Qed.

End AccessCache.

(** C6.  Two successive calls of [AccessFor] with the same URL return the
    same [Access], and the second call adds no configuration read and leaves
    the cache as the first call left it. *)
Theorem AccessFor_twice_served_from_cache
    (N : url.Net) (e : endpointGitFinder) (rawurl : string) :
  fst (AccessFor rawurl (snd (AccessFor rawurl e))) = fst (AccessFor rawurl e) /\
  config_reads (snd (AccessFor rawurl (snd (AccessFor rawurl e))))
  = config_reads (snd (AccessFor rawurl e)) /\
  urlAccess (snd (AccessFor rawurl (snd (AccessFor rawurl e))))
  = urlAccess (snd (AccessFor rawurl e)).
Proof.
  destruct (urlWithoutAuth_fields rawurl e) as (Hg & Ha & Hc & _ & Hr).
  destruct (gitEnv e) as [env|] eqn:He.
  - destruct (urlAccess e !! stripped_url rawurl) as [m|] eqn:Hm.
    + rewrite (AccessFor_hit rawurl e env m He Hm). simpl.
      destruct (urlWithoutAuth_fields rawurl (snd (urlWithoutAuth rawurl e)))
        as (Hg' & Ha' & _ & _ & Hr').
      rewrite (AccessFor_hit rawurl _ env m) by congruence. simpl.
      repeat split; congruence.
    + rewrite (AccessFor_miss rawurl e env He Hm). simpl.
      set (k := stripped_url rawurl).
      set (m := configured_mode (urlConfig e) k).
      set (e1 := set_urlAccess (insert k m) _).
      assert (He1 : gitEnv e1 = Some env) by (unfold e1; simpl; congruence).
      assert (Hm1 : urlAccess e1 !! k = Some m)
        by (unfold e1; simpl; apply lookup_insert_eq).
      rewrite (AccessFor_hit rawurl e1 env m He1 Hm1). simpl.
      destruct (urlWithoutAuth_fields rawurl e1) as (_ & Ha1 & _ & _ & Hr1).
      repeat split; assumption.
  - rewrite (AccessFor_nil rawurl e He). simpl.
    destruct (urlWithoutAuth_fields rawurl (snd (urlWithoutAuth rawurl e)))
      as (Hg' & Ha' & _ & _ & Hr').
    rewrite (AccessFor_nil rawurl _) by congruence. simpl.
    repeat split; congruence.
Qed.

Lemma SetAccess_none_run (e : endpointGitFinder) (a : Access) :
  mode a = NoneAccess \/ mode a = emptyAccess ->
  snd (SetAccess a e)
  = set_urlAccess (insert (url a) NoneAccess)
      (set_gitConfig (delete ("lfs." ++ url a ++ ".access"))
         (record_call (UnsetLocalKey ("lfs." ++ url a ++ ".access"))
            (record_call (Tracerx ("setting repository access to " ++ mode a)) e))).
Proof.
  intros Hm. unfold SetAccess, Mode, mbind, M_bind, call, modify.
  destruct Hm as [Hm | Hm]; rewrite Hm; reflexivity.
Qed.

Lemma SetAccess_other_run (e : endpointGitFinder) (a : Access) :
  mode a <> NoneAccess -> mode a <> emptyAccess ->
  snd (SetAccess a e)
  = set_urlAccess (insert (url a) (mode a))
      (set_gitConfig (insert ("lfs." ++ url a ++ ".access") (mode a))
         (record_call (SetLocal ("lfs." ++ url a ++ ".access") (mode a))
            (record_call (Tracerx ("setting repository access to " ++ mode a)) e))).
Proof.
  intros Hn He. unfold SetAccess, Mode, mbind, M_bind, call, modify.
  apply String.eqb_neq in Hn, He. rewrite Hn, He. reflexivity.
Qed.

(** C7.  For an [Access] whose mode is "none" or empty, [SetAccess] removes
    the local key [lfs.<url>.access] and caches "none" for the URL, so that a
    following [AccessFor] whose credential-stripped URL is that URL returns
    "none" from the cache, without a configuration read, whatever the
    configuration holds; for any other mode it writes the mode to the local
    key and caches that mode. *)
Theorem SetAccess_persists_and_caches
    (N : url.Net) (e : endpointGitFinder) (a : Access) :
  (mode a = NoneAccess \/ mode a = emptyAccess ->
   gitConfig (snd (SetAccess a e)) = delete ("lfs." ++ url a ++ ".access") (gitConfig e) /\
   gitConfig (snd (SetAccess a e)) !! ("lfs." ++ url a ++ ".access") = None /\
   UnsetLocalKey ("lfs." ++ url a ++ ".access") ∈ calls (snd (SetAccess a e)) /\
   urlAccess (snd (SetAccess a e)) !! url a = Some NoneAccess /\
   forall rawurl, stripped_url rawurl = url a ->
     fst (AccessFor rawurl (snd (SetAccess a e))) = mkAccess NoneAccess (url a) /\
     config_reads (snd (AccessFor rawurl (snd (SetAccess a e))))
     = config_reads (snd (SetAccess a e)))
  /\
  (mode a <> NoneAccess -> mode a <> emptyAccess ->
   gitConfig (snd (SetAccess a e))
   = <["lfs." ++ url a ++ ".access" := mode a]> (gitConfig e) /\
   SetLocal ("lfs." ++ url a ++ ".access") (mode a) ∈ calls (snd (SetAccess a e)) /\
   urlAccess (snd (SetAccess a e)) !! url a = Some (mode a)).
Proof.
  split.
  - intros Hm. rewrite (SetAccess_none_run e a Hm).
    set (e' := set_urlAccess _ _).
    assert (Hcache : urlAccess e' !! url a = Some NoneAccess)
      by (unfold e'; simpl; apply lookup_insert_eq).
    split; [reflexivity|].
    split; [unfold e'; simpl; apply lookup_delete_eq|].
    split; [unfold e'; simpl; apply elem_of_app; right; constructor|].
    split; [exact Hcache|].
    intros rawurl Hk.
    destruct (urlWithoutAuth_fields rawurl e') as (_ & _ & _ & _ & Hr).
    destruct (gitEnv e') as [env|] eqn:He'.
    + rewrite (AccessFor_hit rawurl e' env NoneAccess He') by (rewrite Hk; exact Hcache).
      simpl. rewrite Hk. split; [reflexivity | exact Hr].
    + rewrite (AccessFor_nil rawurl e' He'). simpl.
      rewrite Hk. split; [reflexivity | exact Hr].
  - intros Hn He. rewrite (SetAccess_other_run e a Hn He).
    split; [reflexivity|].
    split; [simpl; apply elem_of_app; right; constructor|].
    simpl. apply lookup_insert_eq.
Qed.

Lemma SetAccess_persists_and_caches_witness :
  (mode none_access = NoneAccess \/ mode none_access = emptyAccess) /\
  stripped_url (N := GoURL.net) "https://h/r" = url none_access /\
  mode (fst (AccessFor (N := GoURL.net) "https://h/r" Sample.private_finder)) = BasicAccess /\
  fst (AccessFor (N := GoURL.net) "https://h/r" (snd (SetAccess none_access Sample.private_finder)))
  = mkAccess NoneAccess (url none_access).
Proof.
  assert (H1 : mode none_access = NoneAccess \/ mode none_access = emptyAccess)
    by (left; reflexivity).
  assert (H2 : stripped_url (N := GoURL.net) "https://h/r" = url none_access)
    by reflexivity.
  split; [exact H1|]. split; [exact H2|]. split; [vm_compute; reflexivity|].
  destruct (proj1 (SetAccess_persists_and_caches GoURL.net Sample.private_finder none_access) H1)
    as (_ & _ & _ & _ & Hsub).
  exact (proj1 (Hsub "https://h/r" H2)).
Defined.

(** C8 (amended).  When every cached mode is one of the enumerated values
    and the configured value for the URL is empty or an ASCII string whose
    lower-case form is one of the enumerated values, the mode returned by
    [AccessFor] is one of the enumerated values. *)
Theorem AccessFor_mode_enumerated
    (N : url.Net) (e : endpointGitFinder) (rawurl : string) :
  (forall k m, urlAccess e !! k = Some m -> enumerated m) ->
  (fst (config.URLConfig_Get (urlConfig e) "lfs" (stripped_url rawurl) "access") = "" \/
   (strings.isASCII
      (fst (config.URLConfig_Get (urlConfig e) "lfs" (stripped_url rawurl) "access")) = true /\
    enumerated (strings.ToLower
      (fst (config.URLConfig_Get (urlConfig e) "lfs" (stripped_url rawurl) "access"))))) ->
  enumerated (mode (fst (AccessFor rawurl e))).
Proof.
  intros Hcache Hconf.
  assert (Hnone : enumerated NoneAccess) by (unfold enumerated; repeat constructor).
  assert (Hbasic : enumerated BasicAccess) by (unfold enumerated; repeat constructor).
  destruct (gitEnv e) as [env|] eqn:He.
  - destruct (urlAccess e !! stripped_url rawurl) as [m|] eqn:Hm.
    + rewrite (AccessFor_hit rawurl e env m He Hm). simpl. by apply (Hcache _ _ Hm).
    + rewrite (AccessFor_miss rawurl e env He Hm). simpl.
      unfold configured_mode.
      destruct (String.eqb _ "") eqn:Hv; [exact Hnone|].
      destruct (String.eqb (strings.ToLower _) "private"); [exact Hbasic|].
      destruct Hconf as [Hc | [_ Hc]]; [|exact Hc].
      apply String.eqb_neq in Hv. contradiction.
  - rewrite (AccessFor_nil rawurl e He). exact Hnone.
Qed.

Lemma AccessFor_mode_enumerated_witness :
  (forall k m, urlAccess Sample.ntlm_finder !! k = Some m -> enumerated m) /\
  strings.isASCII
    (fst (config.URLConfig_Get (urlConfig Sample.ntlm_finder) "lfs"
            (stripped_url (N := GoURL.net) "https://h/r") "access")) = true /\
  enumerated (strings.ToLower
    (fst (config.URLConfig_Get (urlConfig Sample.ntlm_finder) "lfs"
            (stripped_url (N := GoURL.net) "https://h/r") "access"))) /\
  enumerated (mode (fst (AccessFor (N := GoURL.net) "https://h/r" Sample.ntlm_finder))).
Proof.
  assert (H1 : forall k m, urlAccess Sample.ntlm_finder !! k = Some m -> enumerated m).
  { intros k m Hm. simpl in Hm. by rewrite lookup_empty in Hm. }
  assert (H2 : strings.isASCII
    (fst (config.URLConfig_Get (urlConfig Sample.ntlm_finder) "lfs"
            (stripped_url (N := GoURL.net) "https://h/r") "access")) = true)
    by (vm_compute; reflexivity).
  assert (H3 : enumerated (strings.ToLower
    (fst (config.URLConfig_Get (urlConfig Sample.ntlm_finder) "lfs"
            (stripped_url (N := GoURL.net) "https://h/r") "access")))).
  { vm_compute. repeat constructor. }
  split; [exact H1|]. split; [exact H2|]. split; [exact H3|].
  exact (AccessFor_mode_enumerated GoURL.net Sample.ntlm_finder "https://h/r" H1
           (or_intror (conj H2 H3))).
Defined.

(** C8, the claim as stated fails: with [lfs.<url>.access] configured to
    "bogus", [AccessFor] returns the mode "bogus", which is none of the
    enumerated values. *)
Lemma AccessFor_mode_not_enumerated_counterexample :
  fst (config.URLConfig_Get (urlConfig Sample.bogus_finder) "lfs" "https://h/r" "access")
  = "bogus" /\
  mode (fst (AccessFor (N := GoURL.net) "https://h/r" Sample.bogus_finder)) = "bogus" /\
  ~ enumerated (mode (fst (AccessFor (N := GoURL.net) "https://h/r" Sample.bogus_finder))).
Proof.
  split; [reflexivity|]. split; [vm_compute; reflexivity|].
  intros Hin.
  assert (Hm : mode (fst (AccessFor (N := GoURL.net) "https://h/r" Sample.bogus_finder))
               = "bogus") by (vm_compute; reflexivity).
  rewrite Hm in Hin. unfold enumerated in Hin.
  repeat (apply elem_of_cons in Hin as [Hin|Hin]; [discriminate|]).
  by apply elem_of_nil in Hin.
Qed.

(** C9.  On a cache miss, a configured value "private" yields an [Access]
    with mode "basic", and "basic" is what the cache then holds. *)
Theorem AccessFor_private_normalised_to_basic
    (N : url.Net) (e : endpointGitFinder) (env : config.Environment) (rawurl : string) :
  gitEnv e = Some env ->
  urlAccess e !! stripped_url rawurl = None ->
  fst (config.URLConfig_Get (urlConfig e) "lfs" (stripped_url rawurl) "access") = "private" ->
  fst (AccessFor rawurl e) = mkAccess BasicAccess (stripped_url rawurl) /\
  urlAccess (snd (AccessFor rawurl e)) !! stripped_url rawurl = Some BasicAccess.
Proof.
  intros He Hm Hv. rewrite (AccessFor_miss rawurl e env He Hm). simpl.
  unfold configured_mode. rewrite Hv. simpl.
  split; [reflexivity | apply lookup_insert_eq].
Qed.

Lemma AccessFor_private_normalised_to_basic_witness :
  gitEnv Sample.private_finder = Some Sample.origin_env /\
  urlAccess Sample.private_finder !! stripped_url (N := GoURL.net) "https://h/r" = None /\
  fst (config.URLConfig_Get (urlConfig Sample.private_finder) "lfs"
         (stripped_url (N := GoURL.net) "https://h/r") "access") = "private" /\
  fst (AccessFor (N := GoURL.net) "https://h/r" Sample.private_finder)
  = mkAccess BasicAccess (stripped_url (N := GoURL.net) "https://h/r").
Proof.
  assert (H1 : gitEnv Sample.private_finder = Some Sample.origin_env) by reflexivity.
  assert (H2 : urlAccess Sample.private_finder !! stripped_url (N := GoURL.net) "https://h/r"
               = None) by (vm_compute; reflexivity).
  assert (H3 : fst (config.URLConfig_Get (urlConfig Sample.private_finder) "lfs"
                      (stripped_url (N := GoURL.net) "https://h/r") "access") = "private")
    by reflexivity.
  split; [exact H1|]. split; [exact H2|]. split; [exact H3|].
  exact (proj1 (AccessFor_private_normalised_to_basic GoURL.net Sample.private_finder
                  Sample.origin_env "https://h/r" H1 H2 H3)).
Defined.

Lemma urlWithoutAuth_no_at {N : url.Net} rawurl e :
  strings.Contains rawurl "@" = false -> urlWithoutAuth rawurl e = (rawurl, e).
Proof. intros H. unfold urlWithoutAuth. rewrite H. reflexivity. Qed.

Lemma stripped_url_no_at {N : url.Net} rawurl :
  strings.Contains rawurl "@" = false -> stripped_url rawurl = rawurl.
Proof. intros H. unfold stripped_url. rewrite H. reflexivity. Qed.

Lemma app_slash_neq (s : string) : s ++ "/" <> s.
Proof.
  intros H. apply (f_equal String.length) in H.
  rewrite length_app in H. simpl in H. lia.
Qed.

(** C10.  For a URL without '@', [AccessFor] returns an [Access] carrying
    the input string itself, touches the cache at no other key than that
    string (in particular not at the string followed by "/"), stores the
    entry under that string when a configuration source is present, and
    computes the same result and state whatever [url.Parse] and [String]
    are: the URL is neither parsed nor normalised. *)
Theorem AccessFor_keeps_url_without_at
    (N : url.Net) (e : endpointGitFinder) (rawurl : string) :
  strings.Contains rawurl "@" = false ->
  url (fst (AccessFor rawurl e)) = rawurl /\
  (forall k, k <> rawurl ->
     urlAccess (snd (AccessFor rawurl e)) !! k = urlAccess e !! k) /\
  (is_Some (gitEnv e) -> is_Some (urlAccess (snd (AccessFor rawurl e)) !! rawurl)) /\
  urlAccess (snd (AccessFor rawurl e)) !! (rawurl ++ "/") = urlAccess e !! (rawurl ++ "/") /\
  (forall N' : url.Net, AccessFor (N := N') rawurl e = AccessFor (N := N) rawurl e).
Proof.
  intros Hat.
  pose proof (stripped_url_no_at rawurl Hat) as Hk.
  assert (Hsnd : snd (urlWithoutAuth rawurl e) = e)
    by (by rewrite (urlWithoutAuth_no_at rawurl e Hat)).
  assert (Hother : forall k, k <> rawurl ->
            urlAccess (snd (AccessFor rawurl e)) !! k = urlAccess e !! k).
  { intros k Hne. destruct (gitEnv e) as [env|] eqn:He.
    - destruct (urlAccess e !! stripped_url rawurl) as [m|] eqn:Hm.
      + rewrite (AccessFor_hit rawurl e env m He Hm). simpl. by rewrite Hsnd.
      + rewrite (AccessFor_miss rawurl e env He Hm). simpl.
        rewrite Hk, lookup_insert_ne by congruence. by rewrite Hsnd.
    - rewrite (AccessFor_nil rawurl e He). simpl. by rewrite Hsnd. }
  split; [|split; [exact Hother|split; [|split]]].
  - destruct (gitEnv e) as [env|] eqn:He.
    + destruct (urlAccess e !! stripped_url rawurl) as [m|] eqn:Hm.
      * rewrite (AccessFor_hit rawurl e env m He Hm). exact Hk.
      * rewrite (AccessFor_miss rawurl e env He Hm). exact Hk.
    + rewrite (AccessFor_nil rawurl e He). exact Hk.
  - intros [env He].
    destruct (urlAccess e !! stripped_url rawurl) as [m|] eqn:Hm.
    + rewrite (AccessFor_hit rawurl e env m He Hm). simpl.
      rewrite Hsnd, <- Hk, Hm. eauto.
    + rewrite (AccessFor_miss rawurl e env He Hm). simpl.
      rewrite Hk, lookup_insert_eq. eauto.
  - apply Hother, app_slash_neq.
  - intros N'. unfold AccessFor, mbind, M_bind.
    rewrite (urlWithoutAuth_no_at (N := N') rawurl e Hat).
    rewrite (urlWithoutAuth_no_at (N := N) rawurl e Hat). reflexivity.
Qed.

Lemma AccessFor_keeps_url_without_at_witness :
  strings.Contains "https://h/r" "@" = false /\
  url (fst (AccessFor (N := GoURL.net) "https://h/r" Sample.private_finder)) = "https://h/r" /\
  urlAccess (snd (AccessFor (N := GoURL.net) "https://h/r" Sample.private_finder))
    !! ("https://h/r" ++ "/")
  = urlAccess Sample.private_finder !! ("https://h/r" ++ "/").
Proof.
  assert (H1 : strings.Contains "https://h/r" "@" = false) by (vm_compute; reflexivity).
  destruct (AccessFor_keeps_url_without_at GoURL.net Sample.private_finder "https://h/r" H1)
    as (Hu & _ & _ & Hs & _).
  split; [exact H1|]. split; [exact Hu | exact Hs].
Defined.

(** * Further properties of the finder *)

(** ** More on strings *)

Lemma take_drop (n : nat) (s : string) : strings.take n s ++ strings.drop n s = s.
Proof.
  revert s. induction n as [|n IH]; intros [|c s]; simpl; try reflexivity.
  rewrite app_String. by rewrite IH.
Qed.

Lemma take_app (p t : string) : strings.take (String.length p) (p ++ t) = p.
Proof.
  induction p as [|c p IH]; [by destruct t|].
  rewrite app_String. simpl. by rewrite IH.
Qed.

Lemma length_drop (n : nat) (s : string) :
  String.length (strings.drop n s) = String.length s - n.
Proof. revert s. induction n as [|n IH]; intros [|c s]; simpl; auto. Qed.

Lemma app_assoc_string (a b c : string) : (a ++ b) ++ c = a ++ (b ++ c).
Proof.
  induction a as [|x a IH]; [reflexivity|]. rewrite !app_String. by rewrite IH.
Qed.

Lemma app_inv_head_string (p s t : string) : p ++ s = p ++ t -> s = t.
Proof.
  induction p as [|c p IH]; [auto|]. rewrite !app_String. intros H. injection H. auto.
Qed.

Lemma app_inv_tail_string (s t q : string) : s ++ q = t ++ q -> s = t.
Proof.
  revert t. induction s as [|c s IH]; intros [|d t] H.
  - reflexivity.
  - apply (f_equal String.length) in H. rewrite !length_app in H. simpl in H. lia.
  - apply (f_equal String.length) in H. rewrite !length_app in H. simpl in H. lia.
  - rewrite !app_String in H. injection H as -> H. f_equal. by apply IH.
Qed.

Lemma HasSuffix_app (s suffix : string) :
  strings.HasSuffix s suffix = true <-> exists t, s = t ++ suffix.
Proof.
  unfold strings.HasSuffix. split.
  - intros [Hlen Heq]%andb_true_iff. apply String.eqb_eq in Heq.
    exists (strings.take (String.length s - String.length suffix) s).
    pose proof (take_drop (String.length s - String.length suffix) s) as Htd.
    rewrite Heq in Htd. by symmetry.
  - intros [t ->]. rewrite length_app. apply andb_true_iff. split.
    + apply Nat.leb_le. lia.
    + replace (String.length t + String.length suffix - String.length suffix)
        with (String.length t) by lia.
      rewrite drop_app. apply String.eqb_refl.
Qed.

(** ** Building the alias table *)

Lemma slice_alias_key (X : string) :
  slice (String.length aliasPrefix)
        (String.length ("url." ++ X ++ ".insteadof") - String.length ".insteadof")
        ("url." ++ X ++ ".insteadof")
  = Some X.
Proof.
  unfold slice. rewrite !length_app. simpl String.length.
  replace (4 + (String.length X + 10) - 10) with (4 + String.length X) by lia.
  replace (4 + String.length X - 4) with (String.length X) by lia.
  assert (Hb : ((4 <=? 4 + String.length X)
                && (4 + String.length X <=? 4 + (String.length X + 10)))%nat = true).
  { apply andb_true_iff. split; apply Nat.leb_le; lia. }
  rewrite Hb. f_equal.
  change 4 with (String.length "url."). rewrite drop_app. apply take_app.
Qed.

(** A key that passes the filter of [initAliases] is "url.insteadof", where
    prefix and suffix overlap, or has a replacement between the two. *)
Lemma alias_key_shape (key : string) :
  strings.HasPrefix key aliasPrefix = true ->
  strings.HasSuffix key ".insteadof" = true ->
  (key = "url.insteadof" /\ String.length key < 14) \/
  (exists X, key = "url." ++ X ++ ".insteadof" /\ 14 <= String.length key).
Proof.
  intros [t Ht]%HasPrefix_app [s Hs]%HasSuffix_app.
  unfold aliasPrefix in Ht.
  destruct s as [|a [|b [|c [|d s]]]]; rewrite Ht in Hs;
    rewrite ?app_String, ?app_empty in Hs.
  - discriminate.
  - injection Hs as _ Hs. discriminate.
  - injection Hs as _ _ Hs. discriminate.
  - injection Hs as <- <- <- ->. left. subst key. split; [reflexivity | simpl; lia].
  - injection Hs as <- <- <- <- ->. right. exists s. subst key.
    split; [reflexivity|]. rewrite !length_app. simpl. lia.
Qed.

Lemma storeAlias_empty (aliases : gmap string string) (key : string) :
  storeAlias aliases key [] ".insteadof" = None.
Proof. reflexivity. Qed.

Lemma storeAlias_short (aliases : gmap string string) (value : list string) :
  storeAlias aliases "url.insteadof" value ".insteadof" = None.
Proof. destruct value; reflexivity. Qed.

Lemma storeAlias_long (aliases : gmap string string) (X : string) (value : list string) :
  value <> [] ->
  storeAlias aliases ("url." ++ X ++ ".insteadof") value ".insteadof"
  = Some (<[List.last value "" := X]> aliases,
          bool_decide (is_Some (aliases !! List.last value ""))).
Proof.
  intros Hv. unfold storeAlias. destruct value as [|v value]; [congruence|].
  rewrite slice_alias_key. reflexivity.
Qed.

(** X1.  [storeAlias] called with the key [url.<X>.insteadof] and at least
    one value stores [X] as the replacement of the last configured value,
    whatever the table held for that alias before, and reports a duplicate
    exactly when the alias was already present; looking the alias up
    afterwards gives [X], and the other aliases are kept. *)
Theorem storeAlias_stores_replacement
    (aliases : gmap string string) (X : string) (value : list string) :
  value <> [] ->
  exists aliases',
    storeAlias aliases ("url." ++ X ++ ".insteadof") value ".insteadof"
    = Some (aliases', bool_decide (is_Some (aliases !! List.last value ""))) /\
    aliases' !! List.last value "" = Some X /\
    (forall k, k <> List.last value "" -> aliases' !! k = aliases !! k).
Proof.
  intros Hv. exists (<[List.last value "" := X]> aliases).
  split; [by apply storeAlias_long|].
  split; [apply lookup_insert_eq|].
  intros k Hk. by rewrite lookup_insert_ne.
Qed.

Lemma storeAlias_stores_replacement_witness :
  ["b"; "a"] <> [] /\
  exists aliases',
    storeAlias {[ "a" := "X" ]} ("url." ++ "Y" ++ ".insteadof") ["b"; "a"] ".insteadof"
    = Some (aliases', bool_decide (is_Some (({[ "a" := "X" ]} : gmap string string)
                                              !! List.last ["b"; "a"] ""))) /\
    aliases' !! List.last ["b"; "a"] "" = Some "Y" /\
    (forall k, k <> List.last ["b"; "a"] "" ->
               aliases' !! k = ({[ "a" := "X" ]} : gmap string string) !! k).
Proof.
  assert (H1 : ["b"; "a"] <> ([] : list string)) by discriminate.
  split; [exact H1|].
  exact (storeAlias_stores_replacement {[ "a" := "X" ]} "Y" ["b"; "a"] H1).
Defined.

(** X2.  For a key that passes the filter of [initAliases] (prefix "url."
    and suffix ".insteadof"), [storeAlias] panics exactly in two cases: on an
    empty value slice, where indexing the last value is out of range, and on
    the key "url.insteadof", where the prefix and the suffix share the dot
    and the slice of the key is out of range. *)
Theorem storeAlias_panics_iff_empty_or_overlap
    (aliases : gmap string string) (key : string) (value : list string) :
  strings.HasPrefix key aliasPrefix = true ->
  strings.HasSuffix key ".insteadof" = true ->
  storeAlias aliases key value ".insteadof" = None <->
  value = [] \/ key = "url.insteadof".
Proof.
  intros Hp Hs. destruct value as [|v value].
  - split; [by left | reflexivity].
  - destruct (alias_key_shape key Hp Hs) as [[-> _] | (X & -> & _)].
    + split; [by right | intros _; apply storeAlias_short].
    + rewrite storeAlias_long by discriminate. split; [discriminate|].
      intros [Hv | Hk]; [discriminate|].
      apply (f_equal String.length) in Hk.
      rewrite !length_app in Hk. simpl in Hk. lia.
Qed.

Lemma storeAlias_panics_iff_empty_or_overlap_witness :
  strings.HasPrefix "url.insteadof" aliasPrefix = true /\
  strings.HasSuffix "url.insteadof" ".insteadof" = true /\
  storeAlias ∅ "url.insteadof" ["a"] ".insteadof" = None /\
  strings.HasPrefix "url.X.insteadof" aliasPrefix = true /\
  strings.HasSuffix "url.X.insteadof" ".insteadof" = true /\
  storeAlias ∅ "url.X.insteadof" [] ".insteadof" = None /\
  storeAlias ∅ "url.X.insteadof" ["a"] ".insteadof" <> None.
Proof.
  assert (H1 : strings.HasPrefix "url.insteadof" aliasPrefix = true) by reflexivity.
  assert (H2 : strings.HasSuffix "url.insteadof" ".insteadof" = true) by reflexivity.
  assert (H3 : strings.HasPrefix "url.X.insteadof" aliasPrefix = true) by reflexivity.
  assert (H4 : strings.HasSuffix "url.X.insteadof" ".insteadof" = true) by reflexivity.
  split; [exact H1|]. split; [exact H2|].
  split; [exact (proj2 (storeAlias_panics_iff_empty_or_overlap ∅ "url.insteadof" ["a"] H1 H2)
                   (or_intror eq_refl))|].
  split; [exact H3|]. split; [exact H4|].
  split; [exact (proj2 (storeAlias_panics_iff_empty_or_overlap ∅ "url.X.insteadof" [] H3 H4)
                   (or_introl eq_refl))|].
  intros Hn.
  destruct (proj1 (storeAlias_panics_iff_empty_or_overlap ∅ "url.X.insteadof" ["a"] H3 H4) Hn)
    as [Hv | Hk]; discriminate.
Defined.

Lemma initAliases_cons (aliases : gmap string string) k vs rest :
  initAliases aliases ((k, vs) :: rest)
  = if (List.length vs =? 0)%nat
       || negb (strings.HasPrefix k aliasPrefix && strings.HasSuffix k ".insteadof")
    then initAliases aliases rest
    else match storeAlias aliases k vs ".insteadof" with
         | Some (aliases', _) => initAliases aliases' rest
         | None => None
         end.
Proof. reflexivity. Qed.

Lemma initAliases_app (aliases : gmap string string) (l1 l2 : list (string * list string)) :
  initAliases aliases (l1 ++ l2)
  = initAliases aliases l1 ≫= fun aliases' => initAliases aliases' l2.
Proof.
  revert aliases. induction l1 as [|[k vs] l1 IH]; intros aliases; simpl.
  - reflexivity.
  - destruct ((List.length vs =? 0)%nat
              || negb (strings.HasPrefix k aliasPrefix && strings.HasSuffix k ".insteadof")).
    + apply IH.
    + destruct (storeAlias aliases k vs ".insteadof") as [[a' w]|]; [apply IH | reflexivity].
Qed.

Lemma alias_key_passes_filter (X : string) :
  strings.HasPrefix ("url." ++ X ++ ".insteadof") aliasPrefix
  && strings.HasSuffix ("url." ++ X ++ ".insteadof") ".insteadof" = true.
Proof.
  apply andb_true_iff. split.
  - apply HasPrefix_app. eexists. reflexivity.
  - apply HasSuffix_app. exists ("url." ++ X). by rewrite app_assoc_string.
Qed.

(** X3.  An entry [url.<X>.insteadof] with at least one value, seen after
    the entries [all], maps the last of its values to [X] and overrides
    whatever the earlier entries stored for that alias: the last entry seen
    wins, and the other aliases are kept. *)
Theorem initAliases_last_entry_wins
    (aliases aliases' : gmap string string) (all : list (string * list string))
    (X : string) (vs : list string) :
  initAliases aliases all = Some aliases' ->
  vs <> [] ->
  initAliases aliases (all ++ [("url." ++ X ++ ".insteadof", vs)])
  = Some (<[List.last vs "" := X]> aliases').
Proof.
  intros Hall Hvs. rewrite initAliases_app, Hall.
  change (initAliases aliases' [("url." ++ X ++ ".insteadof", vs)]
          = Some (<[List.last vs "" := X]> aliases')).
  rewrite initAliases_cons, alias_key_passes_filter, storeAlias_long by exact Hvs.
  destruct vs as [|v vs]; [congruence | reflexivity].
Qed.

Lemma initAliases_last_entry_wins_witness :
  initAliases ∅ [("url.X.insteadof", ["a"])] = Some {[ "a" := "X" ]} /\
  ["b"; "a"] <> [] /\
  initAliases ∅ ([("url.X.insteadof", ["a"])] ++ [("url." ++ "Y" ++ ".insteadof", ["b"; "a"])])
  = Some (<[List.last ["b"; "a"] "" := "Y"]> {[ "a" := "X" ]}).
Proof.
  assert (H1 : initAliases ∅ [("url.X.insteadof", ["a"])] = Some {[ "a" := "X" ]})
    by (vm_compute; reflexivity).
  assert (H2 : ["b"; "a"] <> ([] : list string)) by discriminate.
  split; [exact H1|]. split; [exact H2|].
  exact (initAliases_last_entry_wins ∅ {[ "a" := "X" ]} [("url.X.insteadof", ["a"])]
           "Y" ["b"; "a"] H1 H2).
Defined.

Lemma initAliases_none_iff (aliases : gmap string string) (all : list (string * list string)) :
  initAliases aliases all = None <->
  exists vs, vs <> [] /\ ("url.insteadof", vs) ∈ all.
Proof.
  revert aliases. induction all as [|[k vs] all IH]; intros aliases; simpl.
  - split; [discriminate | intros (vs & _ & Hin); by apply elem_of_nil in Hin].
  - destruct (List.length vs =? 0)%nat eqn:Hlen; simpl.
    { rewrite IH. apply Nat.eqb_eq, length_zero_iff_nil in Hlen. subst vs.
      split; intros (vs & Hvs & Hin); exists vs; (split; [exact Hvs|]).
      - by apply elem_of_cons; right.
      - apply elem_of_cons in Hin as [Heq|Hin]; [congruence | exact Hin]. }
    assert (Hvs : vs <> []) by (intros ->; discriminate).
    destruct (strings.HasPrefix k aliasPrefix && strings.HasSuffix k ".insteadof") eqn:Hf;
      simpl.
    + apply andb_true_iff in Hf as [Hp Hs].
      destruct (alias_key_shape k Hp Hs) as [[-> _] | (X & -> & Hlong)].
      * rewrite storeAlias_short. split; [intros _|reflexivity].
        exists vs. split; [exact Hvs | by apply elem_of_cons; left].
      * rewrite storeAlias_long by exact Hvs. rewrite IH.
        split; intros (vs' & Hvs' & Hin); exists vs'; (split; [exact Hvs'|]).
        -- by apply elem_of_cons; right.
        -- apply elem_of_cons in Hin as [Heq|Hin]; [|exact Hin].
           apply (f_equal (fun kv => String.length (fst kv))) in Heq.
           cbn [fst] in Heq. rewrite <- Heq in Hlong. simpl in Hlong. lia.
    + rewrite IH.
      split; intros (vs' & Hvs' & Hin); exists vs'; (split; [exact Hvs'|]).
      * by apply elem_of_cons; right.
      * apply elem_of_cons in Hin as [Heq|Hin]; [|exact Hin].
        injection Heq as <- _. vm_compute in Hf. discriminate.
Qed.

(** X4.  [NewEndpointFinder] fails (the Go code panics) exactly when the
    environment is nil or holds the key "url.insteadof" with at least one
    value; in every other case a finder is returned, with the entries of
    every other configuration accepted. *)
Theorem NewEndpointFinder_fails_iff
    (cfg : gmap string string) (env : option config.Environment)
    (newURLConfig : option config.Environment -> config.URLConfig) :
  NewEndpointFinder cfg env newURLConfig = None <->
  env = None \/
  exists genv vs, env = Some genv /\ vs <> [] /\ ("url.insteadof", vs) ∈ config.All genv.
Proof.
  unfold NewEndpointFinder. destruct env as [genv|].
  - destruct (initAliases ∅ (config.All genv)) as [al|] eqn:Hal.
    + split; [discriminate|].
      intros [Hn | (genv' & vs & Heq & Hvs & Hin)]; [discriminate|].
      injection Heq as <-.
      assert (initAliases ∅ (config.All genv) = None) by (apply initAliases_none_iff; eauto).
      congruence.
    + split; [intros _ | reflexivity].
      apply initAliases_none_iff in Hal as (vs & Hvs & Hin).
      right. eauto.
  - split; [by left | reflexivity].
Qed.

(** ** Alias resolution and the classifier *)

(** X5.  The URL returned by [ReplaceUrlAlias] does not depend on the order
    in which the keys of the alias map are visited. *)
Theorem ReplaceUrlAlias_iteration_order_independent
    (aliases : gmap string string) (order1 order2 : list string) (rawurl : string) :
  iteration_order aliases order1 ->
  iteration_order aliases order2 ->
  ReplaceUrlAlias_in order1 aliases rawurl = ReplaceUrlAlias_in order2 aliases rawurl.
Proof.
  intros H1 H2. unfold ReplaceUrlAlias_in.
  by rewrite (longest_alias_order_irrelevant aliases order1 order2 rawurl H1 H2).
Qed.

Lemma ReplaceUrlAlias_iteration_order_independent_witness :
  iteration_order two_alias_table ["a"; "ab"] /\
  iteration_order two_alias_table ["ab"; "a"] /\
  ReplaceUrlAlias_in ["a"; "ab"] two_alias_table "abc"
  = ReplaceUrlAlias_in ["ab"; "a"] two_alias_table "abc".
Proof.
  assert (H1 : iteration_order two_alias_table ["a"; "ab"]).
  { unfold iteration_order. vm_compute. apply perm_swap. }
  assert (H2 : iteration_order two_alias_table ["ab"; "a"]).
  { unfold iteration_order. vm_compute. reflexivity. }
  split; [exact H1|]. split; [exact H2|].
  exact (ReplaceUrlAlias_iteration_order_independent two_alias_table _ _ "abc" H1 H2).
Defined.

(** X6.  [NewEndpoint] applies the alias table once, before anything else:
    its result is that of a finder without aliases on the rewritten URL.  In
    particular the rewritten URL is not rewritten again, and the local-path
    test and the parse see the rewritten URL only. *)
Theorem NewEndpoint_resolves_alias_first
    (N : url.Net) (L : lfshttp.Lib)
    (e : endpointGitFinder) (operation rawurl : string) :
  NewEndpoint e operation rawurl
  = NewEndpoint (set_aliases ∅ e) operation (ReplaceUrlAlias (aliases e) rawurl).
Proof.
  unfold NewEndpoint. cbn [aliases set_aliases].
  rewrite ReplaceUrlAlias_empty. reflexivity.
Qed.

(** ** The suffix of a clone URL *)

Lemma string_of_list_ascii_snoc (l : list ascii) (c : ascii) (s : string) :
  string_of_list_ascii (l ++ [c]) ++ s = string_of_list_ascii l ++ String c s.
Proof.
  induction l as [|d l IH]; [reflexivity|].
  cbn [app string_of_list_ascii]. rewrite !app_String. by rewrite IH.
Qed.

Lemma ext_scan_suffix (l : list ascii) (seen : string) :
  path.ext_scan l seen = "" \/
  exists t, string_of_list_ascii (rev l) ++ seen = t ++ path.ext_scan l seen.
Proof.
  revert seen. induction l as [|c l IH]; intros seen; simpl; [by left|].
  destruct (Ascii.eqb c "/"); [by left|].
  destruct (Ascii.eqb c ".").
  - right. exists (string_of_list_ascii (rev l)). apply string_of_list_ascii_snoc.
  - rewrite string_of_list_ascii_snoc. apply IH.
Qed.

(** [path.Ext] returns a suffix of its argument. *)
Lemma Ext_suffix (p : string) : path.Ext p = "" \/ exists t, p = t ++ path.Ext p.
Proof.
  unfold path.Ext.
  destruct (ext_scan_suffix (rev (list_ascii_of_string p)) "") as [H | [t H]]; [by left|].
  right. exists t. rewrite <- H, rev_involutive, string_of_list_ascii_of_string.
  clear. induction p as [|c p IH]; [reflexivity|]. rewrite app_String. by rewrite <- IH.
Qed.

Lemma lfs_suffix_ends (u : string) :
  strings.HasSuffix (u ++ lfs_suffix u) ".git/info/lfs" = true.
Proof.
  apply HasSuffix_app. unfold lfs_suffix.
  destruct (String.eqb (path.Ext u) ".git") eqn:Hext.
  - apply String.eqb_eq in Hext.
    destruct (Ext_suffix u) as [He | [t Ht]]; [congruence|].
    exists t. rewrite Hext in Ht. rewrite Ht at 1. by rewrite app_assoc_string.
  - by exists u.
Qed.

(** X7.  Unless the resolved URL is the unknown sentinel, in which case the
    endpoint is returned as resolved, the URL of the endpoint returned by
    [NewEndpointFromCloneURL] ends with ".git/info/lfs": a URL whose final
    extension is ".git" gets "/info/lfs", any other gets ".git/info/lfs". *)
Theorem NewEndpointFromCloneURL_ends_with_api_suffix
    (N : url.Net) (L : lfshttp.Lib)
    (e : endpointGitFinder) (operation rawurl : string) :
  (lfshttp.Url (NewEndpoint e operation rawurl) = lfshttp.UrlUnknown ->
   NewEndpointFromCloneURL e operation rawurl = NewEndpoint e operation rawurl)
  /\
  (lfshttp.Url (NewEndpoint e operation rawurl) <> lfshttp.UrlUnknown ->
   strings.HasSuffix (lfshttp.Url (NewEndpointFromCloneURL e operation rawurl))
                     ".git/info/lfs" = true).
Proof.
  split; [apply NewEndpointFromCloneURL_unknown|].
  intros Hu. destruct (strings.HasSuffix rawurl "/") eqn:Hs.
  - rewrite (NewEndpointFromCloneURL_slash e operation rawurl Hu Hs). apply lfs_suffix_ends.
  - rewrite (NewEndpointFromCloneURL_no_slash e operation rawurl Hu Hs). apply lfs_suffix_ends.
Qed.

Lemma NewEndpointFromCloneURL_ends_with_api_suffix_witness :
  lfshttp.Url (NewEndpoint (N := GoURL.net) (L := Sample.lfshttp_lib)
                 Sample.bare_finder "download" "https://h/r.git")
  <> lfshttp.UrlUnknown (Lib := Sample.lfshttp_lib) /\
  lfshttp.Url (NewEndpointFromCloneURL (N := GoURL.net) (L := Sample.lfshttp_lib)
                 Sample.bare_finder "download" "https://h/r.git")
  = "https://h/r.git/info/lfs" /\
  strings.HasSuffix
    (lfshttp.Url (NewEndpointFromCloneURL (N := GoURL.net) (L := Sample.lfshttp_lib)
                    Sample.bare_finder "download" "https://h/r.git"))
    ".git/info/lfs" = true.
Proof.
  assert (H1 : lfshttp.Url (NewEndpoint (N := GoURL.net) (L := Sample.lfshttp_lib)
                              Sample.bare_finder "download" "https://h/r.git")
               <> lfshttp.UrlUnknown (Lib := Sample.lfshttp_lib))
    by (vm_compute; discriminate).
  split; [exact H1|]. split; [vm_compute; reflexivity|].
  exact (proj2 (NewEndpointFromCloneURL_ends_with_api_suffix GoURL.net Sample.lfshttp_lib
                  Sample.bare_finder "download" "https://h/r.git") H1).
Defined.

(** ** More on the resolution cascade *)

(** X8.  An empty remote name stands for "origin": [RemoteEndpoint] and
    [Endpoint] return for it what they return for "origin".  So does
    [Endpoint] for every remote whose own chain yields an endpoint with an
    empty URL, provided no global [lfs.url] (or, for upload, [lfs.pushurl])
    is set. *)
Theorem Endpoint_falls_back_to_origin
    (N : url.Net) (L : lfshttp.Lib) (G : git.Lib)
    (e : endpointGitFinder) (operation remote : string) :
  RemoteEndpoint e operation "" = RemoteEndpoint e operation defaultRemote /\
  Endpoint e operation "" = Endpoint e operation defaultRemote /\
  (lfshttp.Url (RemoteEndpoint e operation remote) = "" ->
   Endpoint e operation remote = Endpoint e operation defaultRemote).
Proof.
  split; [reflexivity|]. split.
  - unfold Endpoint, getEndpoint. rewrite String.eqb_refl. reflexivity.
  - intros Hu. unfold Endpoint. f_equal. unfold getEndpoint.
    destruct (gitEnv e) as [env|]; [|reflexivity].
    destruct (if String.eqb operation "upload" then config.Get env "lfs.pushurl" else None);
      [reflexivity|].
    destruct (config.Get env "lfs.url"); [reflexivity|].
    rewrite String.eqb_refl, andb_false_r. cbv zeta. rewrite Hu.
    destruct ((0 <? String.length remote)%nat && negb (String.eqb remote defaultRemote));
      reflexivity.
Qed.

(** [NewEndpoint] and the clone-URL adapter use the alias table and the
    protocol of the finder and nothing else of it. *)
Lemma NewEndpoint_same_aliases_protocol {N : url.Net} {L : lfshttp.Lib}
    e1 e2 operation rawurl :
  aliases e1 = aliases e2 -> gitProtocol e1 = gitProtocol e2 ->
  NewEndpoint e1 operation rawurl = NewEndpoint e2 operation rawurl.
Proof.
  intros Ha Hp. unfold NewEndpoint, endpointFromGitUrl. rewrite Ha, Hp. reflexivity.
Qed.

Lemma NewEndpointFromCloneURL_same_aliases_protocol {N : url.Net} {L : lfshttp.Lib}
    e1 e2 operation rawurl :
  aliases e1 = aliases e2 -> gitProtocol e1 = gitProtocol e2 ->
  NewEndpointFromCloneURL e1 operation rawurl = NewEndpointFromCloneURL e2 operation rawurl.
Proof.
  intros Ha Hp. unfold NewEndpointFromCloneURL.
  rewrite (NewEndpoint_same_aliases_protocol e1 e2 operation rawurl Ha Hp). reflexivity.
Qed.

Lemma RemoteEndpoint_download_keys {N : url.Net} {L : lfshttp.Lib} {G : git.Lib}
    e1 e2 env1 env2 operation remote :
  gitEnv e1 = Some env1 -> gitEnv e2 = Some env2 ->
  aliases e1 = aliases e2 -> gitProtocol e1 = gitProtocol e2 ->
  operation <> "upload" -> remote <> "" ->
  config.Get env1 ("remote." ++ remote ++ ".lfsurl")
  = config.Get env2 ("remote." ++ remote ++ ".lfsurl") ->
  config.Get env1 ("remote." ++ remote ++ ".url")
  = config.Get env2 ("remote." ++ remote ++ ".url") ->
  RemoteEndpoint e1 operation remote = RemoteEndpoint e2 operation remote.
Proof.
  intros He1 He2 Ha Hp Hop Hr H1 H2. unfold RemoteEndpoint, GitRemoteURL.
  rewrite He1, He2.
  apply String.eqb_neq in Hop. rewrite Hop.
  rewrite eqb_empty_length.
  apply String.eqb_neq in Hr. rewrite Hr.
  rewrite H1, H2.
  destruct (config.Get env2 ("remote." ++ remote ++ ".lfsurl")) as [u|].
  - by apply NewEndpoint_same_aliases_protocol.
  - destruct (config.Get env2 ("remote." ++ remote ++ ".url")) as [u|].
    + destruct (negb (String.eqb u "")); [|reflexivity].
      by apply NewEndpointFromCloneURL_same_aliases_protocol.
    + destruct (negb (String.eqb (if git.ValidateRemote remote then remote else "") ""));
        [|reflexivity].
      by apply NewEndpointFromCloneURL_same_aliases_protocol.
Qed.

(** X9.  For an operation other than upload, two finders that have the same
    alias table and the same protocol, each with an environment, resolve a
    remote to the same endpoint as soon as their environments agree on
    [lfs.url] and on the [lfsurl] and [url] keys of the remote and of
    "origin": resolving reads no other key of the environment, whatever push
    URLs or other keys it holds.  (The alias table and the protocol are read
    from the environment once, when the finder is built.) *)
Theorem Endpoint_download_reads_only_download_keys
    (N : url.Net) (L : lfshttp.Lib) (G : git.Lib)
    (e1 e2 : endpointGitFinder) (env1 env2 : config.Environment)
    (operation remote : string) :
  gitEnv e1 = Some env1 ->
  gitEnv e2 = Some env2 ->
  aliases e1 = aliases e2 ->
  gitProtocol e1 = gitProtocol e2 ->
  operation <> "upload" ->
  (forall k, k ∈ download_keys remote -> config.Get env1 k = config.Get env2 k) ->
  Endpoint e1 operation remote = Endpoint e2 operation remote.
Proof.
  intros He1 He2 Hal Hproto Hop Hkeys.
  assert (Hk : forall n k, download_keys remote !! n = Some k ->
                           config.Get env1 k = config.Get env2 k).
  { intros n k Hn. apply Hkeys. by eapply list_elem_of_lookup_2. }
  assert (Horigin : RemoteEndpoint e1 operation defaultRemote
                    = RemoteEndpoint e2 operation defaultRemote).
  { apply (RemoteEndpoint_download_keys e1 e2 env1 env2); try assumption.
    - discriminate.
    - exact (Hk 3 _ eq_refl).
    - exact (Hk 4 _ eq_refl). }
  unfold Endpoint. f_equal. unfold getEndpoint. rewrite He1, He2.
  pose proof Hop as Hop'. apply String.eqb_neq in Hop'. rewrite Hop'.
  rewrite (Hk 0 "lfs.url" eq_refl).
  destruct (config.Get env2 "lfs.url").
  { by apply NewEndpoint_same_aliases_protocol. }
  rewrite Horigin.
  destruct ((0 <? String.length remote)%nat && negb (String.eqb remote defaultRemote))
    eqn:Hc; [|reflexivity].
  apply andb_true_iff in Hc as [Hlen _].
  assert (Hr : remote <> "") by (intros ->; discriminate).
  rewrite (RemoteEndpoint_download_keys e1 e2 env1 env2 operation remote
             He1 He2 Hal Hproto Hop Hr (Hk 1 _ eq_refl) (Hk 2 _ eq_refl)).
  reflexivity.
Qed.

Lemma Endpoint_falls_back_to_origin_witness :
  lfshttp.Url (RemoteEndpoint (N := GoURL.net) (L := Sample.lfshttp_lib) (G := Sample.git_lib)
                 Sample.origin_finder "download" "upstream") = "" /\
  Endpoint (N := GoURL.net) (L := Sample.lfshttp_lib) (G := Sample.git_lib)
    Sample.origin_finder "download" "upstream"
  = Endpoint (N := GoURL.net) (L := Sample.lfshttp_lib) (G := Sample.git_lib)
      Sample.origin_finder "download" defaultRemote.
Proof.
  assert (H1 : lfshttp.Url (RemoteEndpoint (N := GoURL.net) (L := Sample.lfshttp_lib)
                              (G := Sample.git_lib)
                              Sample.origin_finder "download" "upstream") = "")
    by (vm_compute; reflexivity).
  split; [exact H1|].
  exact (proj2 (proj2 (Endpoint_falls_back_to_origin GoURL.net Sample.lfshttp_lib
                         Sample.git_lib Sample.origin_finder "download" "upstream")) H1).
Defined.

Lemma Endpoint_download_reads_only_download_keys_witness :
  gitEnv Sample.origin_finder = Some Sample.origin_env /\
  gitEnv Sample.origin_push_finder = Some Sample.origin_push_env /\
  aliases Sample.origin_finder = aliases Sample.origin_push_finder /\
  gitProtocol Sample.origin_finder = gitProtocol Sample.origin_push_finder /\
  "download" <> "upload" /\
  (forall k, k ∈ download_keys "origin" ->
             config.Get Sample.origin_env k = config.Get Sample.origin_push_env k) /\
  Endpoint (N := GoURL.net) (L := Sample.lfshttp_lib) (G := Sample.git_lib)
    Sample.origin_finder "download" "origin"
  = Endpoint (N := GoURL.net) (L := Sample.lfshttp_lib) (G := Sample.git_lib)
      Sample.origin_push_finder "download" "origin".
Proof.
  assert (He1 : gitEnv Sample.origin_finder = Some Sample.origin_env) by reflexivity.
  assert (He2 : gitEnv Sample.origin_push_finder = Some Sample.origin_push_env)
    by reflexivity.
  assert (Ha : aliases Sample.origin_finder = aliases Sample.origin_push_finder)
    by reflexivity.
  assert (Hp : gitProtocol Sample.origin_finder = gitProtocol Sample.origin_push_finder)
    by reflexivity.
  assert (H1 : "download" <> "upload") by discriminate.
  assert (H2 : forall k, k ∈ download_keys "origin" ->
             config.Get Sample.origin_env k = config.Get Sample.origin_push_env k).
  { intros k Hk. unfold download_keys in Hk.
    repeat (apply elem_of_cons in Hk as [-> | Hk]; [vm_compute; reflexivity|]).
    by apply elem_of_nil in Hk. }
  split; [exact He1|]. split; [exact He2|]. split; [exact Ha|]. split; [exact Hp|].
  split; [exact H1|]. split; [exact H2|].
  exact (Endpoint_download_reads_only_download_keys GoURL.net Sample.lfshttp_lib
           Sample.git_lib Sample.origin_finder Sample.origin_push_finder
           Sample.origin_env Sample.origin_push_env "download" "origin"
           He1 He2 Ha Hp H1 H2).
Defined.

(** X10.  A remote for which the environment holds none of the keys
    [lfspushurl], [lfsurl], [pushurl] and [url] is taken as a URL itself when
    [git.ValidateRemote] accepts it, and resolved through the clone-URL
    adapter; when [git.ValidateRemote] rejects it, the zero endpoint is
    returned. *)
Theorem RemoteEndpoint_unconfigured_remote
    (N : url.Net) (L : lfshttp.Lib) (G : git.Lib)
    (e : endpointGitFinder) (env : config.Environment) (operation remote : string) :
  gitEnv e = Some env ->
  remote <> "" ->
  (forall key, key ∈ ["lfspushurl"; "lfsurl"; "pushurl"; "url"] ->
     config.Get env ("remote." ++ remote ++ "." ++ key) = None) ->
  RemoteEndpoint e operation remote
  = if git.ValidateRemote remote
    then NewEndpointFromCloneURL e operation remote
    else lfshttp.zero.
Proof.
  intros He Hr Hkeys.
  assert (Hk : forall n key, ["lfspushurl"; "lfsurl"; "pushurl"; "url"] !! n = Some key ->
             config.Get env ("remote." ++ remote ++ "." ++ key) = None).
  { intros n key Hn. apply Hkeys. by eapply list_elem_of_lookup_2. }
  pose proof (Hk 0 _ eq_refl) as H0. pose proof (Hk 1 _ eq_refl) as H1.
  pose proof (Hk 2 _ eq_refl) as H2. pose proof (Hk 3 _ eq_refl) as H3.
  change ("." ++ "lfspushurl") with ".lfspushurl" in H0.
  change ("." ++ "lfsurl") with ".lfsurl" in H1.
  change ("." ++ "pushurl") with ".pushurl" in H2.
  change ("." ++ "url") with ".url" in H3.
  unfold RemoteEndpoint, GitRemoteURL. rewrite He, eqb_empty_length.
  pose proof Hr as Hr'. apply String.eqb_neq in Hr'. rewrite Hr'.
  rewrite H0, H1, H2, H3.
  replace (if String.eqb operation "upload" then None else None)
    with (@None string) by (destruct (String.eqb operation "upload"); reflexivity).
  replace (match (if String.eqb operation "upload" then None else None) with
           | Some u => Some u
           | None => None
           end) with (@None string) by (destruct (String.eqb operation "upload"); reflexivity).
  destruct (git.ValidateRemote remote); [|reflexivity].
  rewrite Hr'. reflexivity.
Qed.

Lemma RemoteEndpoint_unconfigured_remote_witness :
  gitEnv (set_gitEnv (Some Sample.no_env) Sample.bare_finder) = Some Sample.no_env /\
  "https://h/r.git" <> "" /\
  (forall key, key ∈ ["lfspushurl"; "lfsurl"; "pushurl"; "url"] ->
     config.Get Sample.no_env ("remote." ++ "https://h/r.git" ++ "." ++ key) = None) /\
  lfshttp.Url (RemoteEndpoint (N := GoURL.net) (L := Sample.lfshttp_lib)
                 (G := Sample.git_lib_url)
                 (set_gitEnv (Some Sample.no_env) Sample.bare_finder)
                 "download" "https://h/r.git")
  = "https://h/r.git/info/lfs".
Proof.
  assert (H1 : gitEnv (set_gitEnv (Some Sample.no_env) Sample.bare_finder)
               = Some Sample.no_env) by reflexivity.
  assert (H2 : "https://h/r.git" <> "") by discriminate.
  assert (H3 : forall key, key ∈ ["lfspushurl"; "lfsurl"; "pushurl"; "url"] ->
     config.Get Sample.no_env ("remote." ++ "https://h/r.git" ++ "." ++ key) = None)
    by reflexivity.
  split; [exact H1|]. split; [exact H2|]. split; [exact H3|].
  rewrite (RemoteEndpoint_unconfigured_remote GoURL.net Sample.lfshttp_lib Sample.git_lib_url
             _ Sample.no_env "download" "https://h/r.git" H1 H2 H3).
  vm_compute. reflexivity.
Defined.

(** ** More on the access-mode cache *)

Lemma config_reads_record_read prefix rawurl key e :
  config_reads (record_call (URLConfigGet prefix rawurl key) e)
  = (config_reads e ++ [URLConfigGet prefix rawurl key])%list.
Proof. unfold config_reads, record_call. simpl. by rewrite List.filter_app. Qed.

Lemma AccessFor_url {N : url.Net} rawurl e :
  url (fst (AccessFor rawurl e)) = stripped_url rawurl.
Proof.
  destruct (gitEnv e) as [env|] eqn:He.
  - destruct (urlAccess e !! stripped_url rawurl) as [m|] eqn:Hm.
    + by rewrite (AccessFor_hit rawurl e env m He Hm).
    + by rewrite (AccessFor_miss rawurl e env He Hm).
  - by rewrite (AccessFor_nil rawurl e He).
Qed.

Lemma urlWithoutAuth_calls {N : url.Net} rawurl e :
  exists cs, calls (snd (urlWithoutAuth rawurl e)) = (calls e ++ cs)%list /\
             forallb is_read_or_diagnostic cs = true /\
             aliases (snd (urlWithoutAuth rawurl e)) = aliases e /\
             gitProtocol (snd (urlWithoutAuth rawurl e)) = gitProtocol e.
Proof.
  destruct (urlWithoutAuth_snd rawurl e) as [-> | ->].
  - exists []. by rewrite app_nil_r.
  - by exists [StderrParseError rawurl].
Qed.

(** X11.  [AccessFor] never writes: the local configuration, the
    environment, the aliases, the protocol and the URL configuration are the
    same after the call, and the calls it adds are configuration reads and
    parse diagnostics only. *)
Theorem AccessFor_never_writes
    (N : url.Net) (e : endpointGitFinder) (rawurl : string) :
  gitConfig (snd (AccessFor rawurl e)) = gitConfig e /\
  gitEnv (snd (AccessFor rawurl e)) = gitEnv e /\
  aliases (snd (AccessFor rawurl e)) = aliases e /\
  gitProtocol (snd (AccessFor rawurl e)) = gitProtocol e /\
  urlConfig (snd (AccessFor rawurl e)) = urlConfig e /\
  exists cs, calls (snd (AccessFor rawurl e)) = (calls e ++ cs)%list /\
             forallb is_read_or_diagnostic cs = true.
Proof.
  destruct (urlWithoutAuth_fields rawurl e) as (Hg & Ha & Hc & Hl & Hr).
  destruct (urlWithoutAuth_calls rawurl e) as (cs & Hcs & Hall & Hal & Hp).
  destruct (gitEnv e) as [env|] eqn:He.
  - destruct (urlAccess e !! stripped_url rawurl) as [m|] eqn:Hm.
    + rewrite (AccessFor_hit rawurl e env m He Hm). simpl. repeat split; eauto.
    + rewrite (AccessFor_miss rawurl e env He Hm). simpl. repeat split; auto.
      exists (cs ++ [URLConfigGet "lfs" (stripped_url rawurl) "access"])%list.
      rewrite Hcs, <- app_assoc. split; [reflexivity|].
      rewrite forallb_app, Hall. reflexivity.
  - rewrite (AccessFor_nil rawurl e He). simpl. repeat split; eauto.
Qed.

(** X12.  Without a configuration source [AccessFor] answers "none" for
    every URL, even one the cache holds a mode for, and neither reads the
    configuration nor touches the cache. *)
Theorem AccessFor_without_environment
    (N : url.Net) (e : endpointGitFinder) (rawurl : string) :
  gitEnv e = None ->
  fst (AccessFor rawurl e) = mkAccess NoneAccess (stripped_url rawurl) /\
  urlAccess (snd (AccessFor rawurl e)) = urlAccess e /\
  config_reads (snd (AccessFor rawurl e)) = config_reads e.
Proof.
  intros He. rewrite (AccessFor_nil rawurl e He). simpl.
  destruct (urlWithoutAuth_fields rawurl e) as (_ & Ha & _ & _ & Hr). auto.
Qed.

Lemma AccessFor_without_environment_witness :
  gitEnv Sample.cached_nil_finder = None /\
  urlAccess Sample.cached_nil_finder !! "https://h/r" = Some BasicAccess /\
  fst (AccessFor (N := GoURL.net) "https://h/r" Sample.cached_nil_finder)
  = mkAccess NoneAccess (stripped_url (N := GoURL.net) "https://h/r").
Proof.
  assert (H1 : gitEnv Sample.cached_nil_finder = None) by reflexivity.
  split; [exact H1|]. split; [vm_compute; reflexivity|].
  exact (proj1 (AccessFor_without_environment GoURL.net Sample.cached_nil_finder
                  "https://h/r" H1)).
Defined.

(** X13.  [AccessFor] reads the configuration exactly once when a
    configuration source is present and the cache has no entry for the
    credential-stripped URL, with the arguments "lfs", that URL and
    "access", and stores the mode it computed under that URL; in every other
    case it reads nothing and leaves the cache as it is. *)
Theorem AccessFor_reads_once_on_miss
    (N : url.Net) (e : endpointGitFinder) (rawurl : string) :
  (is_Some (gitEnv e) -> urlAccess e !! stripped_url rawurl = None ->
   config_reads (snd (AccessFor rawurl e))
   = (config_reads e ++ [URLConfigGet "lfs" (stripped_url rawurl) "access"])%list /\
   urlAccess (snd (AccessFor rawurl e))
   = <[stripped_url rawurl := mode (fst (AccessFor rawurl e))]> (urlAccess e))
  /\
  (gitEnv e = None \/ is_Some (urlAccess e !! stripped_url rawurl) ->
   config_reads (snd (AccessFor rawurl e)) = config_reads e /\
   urlAccess (snd (AccessFor rawurl e)) = urlAccess e).
Proof.
  destruct (urlWithoutAuth_fields rawurl e) as (Hg & Ha & Hc & Hl & Hr).
  split.
  - intros [env He] Hm. rewrite (AccessFor_miss rawurl e env He Hm). simpl.
    unfold config_reads in *. simpl. rewrite List.filter_app, Hr, Ha. auto.
  - intros [He | [m Hm]].
    + rewrite (AccessFor_nil rawurl e He). auto.
    + destruct (gitEnv e) as [env|] eqn:He.
      * rewrite (AccessFor_hit rawurl e env m He Hm). auto.
      * rewrite (AccessFor_nil rawurl e He). auto.
Qed.

Lemma AccessFor_reads_once_on_miss_witness :
  is_Some (gitEnv Sample.private_finder) /\
  urlAccess Sample.private_finder !! stripped_url (N := GoURL.net) "https://h/r" = None /\
  config_reads (snd (AccessFor (N := GoURL.net) "https://h/r" Sample.private_finder))
  = (config_reads Sample.private_finder
     ++ [URLConfigGet "lfs" (stripped_url (N := GoURL.net) "https://h/r") "access"])%list.
Proof.
  assert (H1 : is_Some (gitEnv Sample.private_finder)) by (eexists; reflexivity).
  assert (H2 : urlAccess Sample.private_finder !! stripped_url (N := GoURL.net) "https://h/r"
               = None) by (vm_compute; reflexivity).
  split; [exact H1|]. split; [exact H2|].
  exact (proj1 (proj1 (AccessFor_reads_once_on_miss GoURL.net Sample.private_finder
                         "https://h/r") H1 H2)).
Defined.

Lemma SetAccess_run (e : endpointGitFinder) (a : Access) :
  snd (SetAccess a e)
  = set_urlAccess (insert (url a) (stored_mode a))
      (set_gitConfig (persist a)
         (record_call (persist_call a)
            (record_call (Tracerx ("setting repository access to " ++ mode a)) e))).
Proof.
  unfold SetAccess, Mode, stored_mode, persist, persist_call, access_key,
    mbind, M_bind, call, modify.
  destruct (String.eqb (mode a) emptyAccess) eqn:He; simpl.
  - reflexivity.
  - destruct (String.eqb (mode a) NoneAccess) eqn:Hn; simpl; [|reflexivity].
    apply String.eqb_eq in Hn. rewrite Hn. reflexivity.
Qed.

Lemma SetAccess_cache_entry (e : endpointGitFinder) (a : Access) :
  gitEnv (snd (SetAccess a e)) = gitEnv e /\
  urlAccess (snd (SetAccess a e)) !! url a = Some (stored_mode a).
Proof. rewrite SetAccess_run. simpl. split; [reflexivity | apply lookup_insert_eq]. Qed.

Lemma access_key_inj (u1 u2 : string) : access_key u1 = access_key u2 -> u1 = u2.
Proof.
  unfold access_key. intros H. apply app_inv_head_string in H.
  by apply app_inv_tail_string in H.
Qed.

(** X14.  [SetAccess] changes one entry of the cache and one key of the
    local configuration, those of the URL of its argument, and nothing else
    in the finder; it makes no configuration read, and records one trace
    message followed by one write to the local configuration. *)
Theorem SetAccess_touches_one_url (e : endpointGitFinder) (a : Access) :
  (forall k, k <> url a ->
     urlAccess (snd (SetAccess a e)) !! k = urlAccess e !! k) /\
  (forall key, key <> access_key (url a) ->
     gitConfig (snd (SetAccess a e)) !! key = gitConfig e !! key) /\
  gitEnv (snd (SetAccess a e)) = gitEnv e /\
  aliases (snd (SetAccess a e)) = aliases e /\
  gitProtocol (snd (SetAccess a e)) = gitProtocol e /\
  urlConfig (snd (SetAccess a e)) = urlConfig e /\
  config_reads (snd (SetAccess a e)) = config_reads e /\
  calls (snd (SetAccess a e))
  = (calls e ++ [Tracerx ("setting repository access to " ++ mode a); persist_call a])%list.
Proof.
  rewrite SetAccess_run. simpl. repeat split.
  - intros k Hk. by rewrite lookup_insert_ne.
  - intros key Hk. unfold persist.
    destruct (String.eqb (mode a) emptyAccess || String.eqb (mode a) NoneAccess).
    + by rewrite lookup_delete_ne.
    + by rewrite lookup_insert_ne.
  - unfold config_reads. simpl. rewrite !List.filter_app. simpl.
    unfold persist_call.
    destruct (String.eqb (mode a) emptyAccess || String.eqb (mode a) NoneAccess);
      simpl; by rewrite !app_nil_r.
  - by rewrite <- app_assoc.
Qed.

(** X15.  With a configuration source present, an [AccessFor] that follows
    [SetAccess] for the same credential-stripped URL returns the mode that
    was set, "none" standing for the empty mode, without reading the
    configuration: the cache entry written by [SetAccess] takes precedence
    over whatever is configured. *)
Theorem AccessFor_after_SetAccess
    (N : url.Net) (e : endpointGitFinder) (a : Access) (rawurl : string) :
  is_Some (gitEnv e) ->
  stripped_url rawurl = url a ->
  fst (AccessFor rawurl (snd (SetAccess a e))) = mkAccess (stored_mode a) (url a) /\
  config_reads (snd (AccessFor rawurl (snd (SetAccess a e))))
  = config_reads (snd (SetAccess a e)).
Proof.
  intros [env He] Hk.
  destruct (SetAccess_cache_entry e a) as (Hg & Hc).
  set (e' := snd (SetAccess a e)) in *.
  destruct (urlWithoutAuth_fields rawurl e') as (_ & _ & _ & _ & Hr).
  rewrite (AccessFor_hit rawurl e' env (stored_mode a)).
  - simpl. rewrite Hk. split; [reflexivity | exact Hr].
  - congruence.
  - rewrite Hk. exact Hc.
Qed.

Lemma AccessFor_after_SetAccess_witness :
  is_Some (gitEnv Sample.private_finder) /\
  stripped_url (N := GoURL.net) "https://h/r" = url ntlm_access /\
  mode (fst (AccessFor (N := GoURL.net) "https://h/r" Sample.private_finder)) = BasicAccess /\
  fst (AccessFor (N := GoURL.net) "https://h/r" (snd (SetAccess ntlm_access Sample.private_finder)))
  = mkAccess NTLMAccess "https://h/r".
Proof.
  assert (H1 : is_Some (gitEnv Sample.private_finder)) by (eexists; reflexivity).
  assert (H2 : stripped_url (N := GoURL.net) "https://h/r" = url ntlm_access) by reflexivity.
  split; [exact H1|]. split; [exact H2|]. split; [vm_compute; reflexivity|].
  exact (proj1 (AccessFor_after_SetAccess GoURL.net Sample.private_finder ntlm_access
                  "https://h/r" H1 H2)).
Defined.

Lemma AccessFor_keeps_config_and_env {N : url.Net} rawurl e :
  gitConfig (snd (AccessFor rawurl e)) = gitConfig e /\
  gitEnv (snd (AccessFor rawurl e)) = gitEnv e.
Proof.
  destruct (urlWithoutAuth_fields rawurl e) as (Hg & Ha & Hc & Hl & Hr).
  destruct (gitEnv e) as [env|] eqn:He.
  - destruct (urlAccess e !! stripped_url rawurl) as [m|] eqn:Hm.
    + rewrite (AccessFor_hit rawurl e env m He Hm). simpl. split; congruence.
    + rewrite (AccessFor_miss rawurl e env He Hm). simpl. split; congruence.
  - rewrite (AccessFor_nil rawurl e He). simpl. split; congruence.
Qed.

(** X16.  The sequence used to record a negotiated mode: the [Access]
    returned by [AccessFor] for a URL, upgraded to a mode [m] and passed to
    [SetAccess], makes the next [AccessFor] for the same URL return [m]
    ("none" for the empty mode) with the same credential-stripped URL, and
    persists [m] under the key [lfs.<that URL>.access] (removing the key for
    "none" and the empty mode); this holds for every URL, with or without
    credentials, when a configuration source is present. *)
Theorem AccessFor_Upgrade_SetAccess_roundtrip
    (N : url.Net) (e : endpointGitFinder) (rawurl : string) (m : AccessMode) :
  is_Some (gitEnv e) ->
  fst (AccessFor rawurl
         (snd (SetAccess (Upgrade (fst (AccessFor rawurl e)) m) (snd (AccessFor rawurl e)))))
  = mkAccess (if String.eqb m emptyAccess then NoneAccess else m) (stripped_url rawurl) /\
  gitConfig (snd (SetAccess (Upgrade (fst (AccessFor rawurl e)) m) (snd (AccessFor rawurl e))))
    !! access_key (stripped_url rawurl)
  = if String.eqb m emptyAccess || String.eqb m NoneAccess then None else Some m.
Proof.
  intros He.
  destruct (AccessFor_keeps_config_and_env rawurl e) as (Hcfg & Henv).
  set (a := Upgrade (fst (AccessFor rawurl e)) m).
  assert (Hurl : url a = stripped_url rawurl) by apply AccessFor_url.
  assert (Hmode : mode a = m) by reflexivity.
  split.
  - destruct He as [env He].
    destruct (SetAccess_cache_entry (snd (AccessFor rawurl e)) a) as (Hg & Hc).
    rewrite (AccessFor_hit rawurl _ env (stored_mode a)).
    + unfold stored_mode. rewrite Hmode. reflexivity.
    + congruence.
    + rewrite <- Hurl. exact Hc.
  - rewrite SetAccess_run. simpl. unfold persist. rewrite Hmode, Hurl.
    destruct (String.eqb m emptyAccess || String.eqb m NoneAccess).
    + apply lookup_delete_eq.
    + apply lookup_insert_eq.
Qed.

Lemma AccessFor_Upgrade_SetAccess_roundtrip_witness :
  is_Some (gitEnv Sample.private_finder) /\
  fst (AccessFor (N := GoURL.net) "https://user@h/r"
         (snd (SetAccess
                 (Upgrade (fst (AccessFor (N := GoURL.net) "https://user@h/r"
                                  Sample.private_finder)) NTLMAccess)
                 (snd (AccessFor (N := GoURL.net) "https://user@h/r" Sample.private_finder)))))
  = mkAccess NTLMAccess "https://h/r".
Proof.
  assert (H1 : is_Some (gitEnv Sample.private_finder)) by (eexists; reflexivity).
  split; [exact H1|].
  exact (proj1 (AccessFor_Upgrade_SetAccess_roundtrip GoURL.net Sample.private_finder
                  "https://user@h/r" NTLMAccess H1)).
Defined.

(** X17.  Of two successive [SetAccess] for the same URL the second one
    decides: cache and local configuration end as if the first had not
    happened. *)
Theorem SetAccess_last_write_wins (e : endpointGitFinder) (a1 a2 : Access) :
  url a1 = url a2 ->
  urlAccess (snd (SetAccess a2 (snd (SetAccess a1 e)))) = urlAccess (snd (SetAccess a2 e)) /\
  gitConfig (snd (SetAccess a2 (snd (SetAccess a1 e)))) = gitConfig (snd (SetAccess a2 e)).
Proof.
  intros Hu. rewrite !SetAccess_run. simpl. split.
  - rewrite Hu. apply insert_insert_eq.
  - unfold persist. rewrite Hu.
    destruct (String.eqb (mode a2) emptyAccess || String.eqb (mode a2) NoneAccess),
             (String.eqb (mode a1) emptyAccess || String.eqb (mode a1) NoneAccess).
    + apply delete_delete_eq.
    + apply delete_insert_eq.
    + apply insert_delete_eq.
    + apply insert_insert_eq.
Qed.

Lemma SetAccess_last_write_wins_witness :
  url ntlm_access = url none_access /\
  urlAccess (snd (SetAccess none_access (snd (SetAccess ntlm_access Sample.private_finder))))
  = urlAccess (snd (SetAccess none_access Sample.private_finder)) /\
  gitConfig (snd (SetAccess none_access (snd (SetAccess ntlm_access Sample.private_finder))))
  = gitConfig (snd (SetAccess none_access Sample.private_finder)).
Proof.
  assert (H1 : url ntlm_access = url none_access) by reflexivity.
  split; [exact H1|].
  exact (SetAccess_last_write_wins Sample.private_finder ntlm_access none_access H1).
Defined.

(** X18.  [SetAccess] calls for different URLs do not interfere: in either
    order they leave the same cache and the same local configuration. *)
Theorem SetAccess_distinct_urls_commute (e : endpointGitFinder) (a1 a2 : Access) :
  url a1 <> url a2 ->
  urlAccess (snd (SetAccess a2 (snd (SetAccess a1 e))))
  = urlAccess (snd (SetAccess a1 (snd (SetAccess a2 e)))) /\
  gitConfig (snd (SetAccess a2 (snd (SetAccess a1 e))))
  = gitConfig (snd (SetAccess a1 (snd (SetAccess a2 e)))).
Proof.
  intros Hu. rewrite !SetAccess_run. simpl. split.
  - apply insert_insert_ne. congruence.
  - assert (Hk : access_key (url a2) <> access_key (url a1)).
    { intros H. apply access_key_inj in H. congruence. }
    unfold persist.
    destruct (String.eqb (mode a2) emptyAccess || String.eqb (mode a2) NoneAccess),
             (String.eqb (mode a1) emptyAccess || String.eqb (mode a1) NoneAccess).
    + apply delete_delete.
    + by apply delete_insert_ne.
    + by apply insert_delete_ne.
    + by apply insert_insert_ne.
Qed.

Lemma SetAccess_distinct_urls_commute_witness :
  url ntlm_access <> url basic_access_other /\
  gitConfig (snd (SetAccess basic_access_other (snd (SetAccess ntlm_access Sample.private_finder))))
  = gitConfig (snd (SetAccess ntlm_access (snd (SetAccess basic_access_other Sample.private_finder)))).
Proof.
  assert (H1 : url ntlm_access <> url basic_access_other) by discriminate.
  split; [exact H1|].
  exact (proj2 (SetAccess_distinct_urls_commute Sample.private_finder
                  ntlm_access basic_access_other H1)).
Defined.

Lemma ToLower_nonempty (v : string) : v <> "" -> strings.ToLower v <> "".
Proof. destruct v; [congruence | discriminate]. Qed.

Lemma configured_mode_normalised (uc : config.URLConfig) (k : string) :
  configured_mode uc k <> emptyAccess /\ configured_mode uc k <> PrivateAccess.
Proof.
  unfold configured_mode.
  destruct (String.eqb (fst (config.URLConfig_Get uc "lfs" k "access")) "") eqn:Hv;
    [split; discriminate|].
  apply String.eqb_neq in Hv.
  destruct (String.eqb (strings.ToLower _) "private") eqn:Hp; [split; discriminate|].
  apply String.eqb_neq in Hp. split; [by apply ToLower_nonempty | exact Hp].
Qed.

(** X19.  The empty sentinel never enters the cache: if no cached mode is
    empty, none is after [AccessFor] and after [SetAccess], and the mode
    returned by [AccessFor] is not empty. *)
Theorem cache_never_holds_empty_mode
    (N : url.Net) (e : endpointGitFinder) (rawurl : string) (a : Access) :
  cache_without_empty e ->
  cache_without_empty (snd (AccessFor rawurl e)) /\
  cache_without_empty (snd (SetAccess a e)) /\
  mode (fst (AccessFor rawurl e)) <> emptyAccess.
Proof.
  intros Hinv.
  destruct (urlWithoutAuth_fields rawurl e) as (Hg & Ha & Hc & Hl & Hr).
  split; [|split].
  - destruct (gitEnv e) as [env|] eqn:He.
    + destruct (urlAccess e !! stripped_url rawurl) as [m|] eqn:Hm.
      * rewrite (AccessFor_hit rawurl e env m He Hm). simpl.
        intros k m' Hk. rewrite Ha in Hk. by apply (Hinv k).
      * rewrite (AccessFor_miss rawurl e env He Hm). simpl.
        intros k m' Hk. simpl in Hk.
        destruct (decide (k = stripped_url rawurl)) as [->|Hne].
        -- rewrite lookup_insert_eq in Hk. injection Hk as <-.
           apply configured_mode_normalised.
        -- rewrite lookup_insert_ne in Hk by congruence.
           rewrite Ha in Hk. by apply (Hinv k).
    + rewrite (AccessFor_nil rawurl e He). simpl.
      intros k m' Hk. rewrite Ha in Hk. by apply (Hinv k).
  - rewrite SetAccess_run. intros k m' Hk. simpl in Hk.
    destruct (decide (k = url a)) as [->|Hne].
    + rewrite lookup_insert_eq in Hk. injection Hk as <-.
      unfold stored_mode. destruct (String.eqb (mode a) emptyAccess) eqn:Hm;
        [discriminate | by apply String.eqb_neq].
    + rewrite lookup_insert_ne in Hk by congruence. by apply (Hinv k).
  - destruct (gitEnv e) as [env|] eqn:He.
    + destruct (urlAccess e !! stripped_url rawurl) as [m|] eqn:Hm.
      * rewrite (AccessFor_hit rawurl e env m He Hm). simpl. by apply (Hinv _ _ Hm).
      * rewrite (AccessFor_miss rawurl e env He Hm). simpl.
        apply configured_mode_normalised.
    + rewrite (AccessFor_nil rawurl e He). discriminate.
Qed.

Lemma cache_never_holds_empty_mode_witness :
  cache_without_empty Sample.private_finder /\
  cache_without_empty (snd (SetAccess (mkAccess emptyAccess "https://h/r") Sample.private_finder)) /\
  mode (fst (AccessFor (N := GoURL.net) "https://h/r" Sample.private_finder)) <> emptyAccess.
Proof.
  assert (H1 : cache_without_empty Sample.private_finder).
  { intros k m Hk. simpl in Hk. by rewrite lookup_empty in Hk. }
  split; [exact H1|].
  exact (proj2 (cache_never_holds_empty_mode GoURL.net Sample.private_finder "https://h/r"
                  (mkAccess emptyAccess "https://h/r") H1)).
Defined.

(** X20.  A mode read from configuration is never "private": on a cache
    miss with a configuration source, [AccessFor] returns "basic" for every
    configured value whose lower-case form is "private", such as "PRIVATE",
    and in no case returns "private". *)
Theorem AccessFor_never_reads_private
    (N : url.Net) (e : endpointGitFinder) (rawurl : string) :
  is_Some (gitEnv e) ->
  urlAccess e !! stripped_url rawurl = None ->
  mode (fst (AccessFor rawurl e)) <> PrivateAccess /\
  (strings.ToLower (fst (config.URLConfig_Get (urlConfig e) "lfs"
                           (stripped_url rawurl) "access")) = "private" ->
   mode (fst (AccessFor rawurl e)) = BasicAccess).
Proof.
  intros [env He] Hm. rewrite (AccessFor_miss rawurl e env He Hm). simpl. split.
  - apply configured_mode_normalised.
  - intros Hp. unfold configured_mode.
    destruct (String.eqb (fst (config.URLConfig_Get (urlConfig e) "lfs"
                                 (stripped_url rawurl) "access")) "") eqn:Hv.
    + apply String.eqb_eq in Hv. rewrite Hv in Hp. discriminate.
    + rewrite Hp. reflexivity.
Qed.

Lemma AccessFor_never_reads_private_witness :
  is_Some (gitEnv Sample.capital_private_finder) /\
  urlAccess Sample.capital_private_finder !! stripped_url (N := GoURL.net) "https://h/r" = None /\
  strings.ToLower (fst (config.URLConfig_Get (urlConfig Sample.capital_private_finder) "lfs"
                          (stripped_url (N := GoURL.net) "https://h/r") "access")) = "private" /\
  mode (fst (AccessFor (N := GoURL.net) "https://h/r" Sample.capital_private_finder))
  = BasicAccess.
Proof.
  assert (H1 : is_Some (gitEnv Sample.capital_private_finder)) by (eexists; reflexivity).
  assert (H2 : urlAccess Sample.capital_private_finder
                 !! stripped_url (N := GoURL.net) "https://h/r" = None)
    by (vm_compute; reflexivity).
  assert (H3 : strings.ToLower
                 (fst (config.URLConfig_Get (urlConfig Sample.capital_private_finder) "lfs"
                         (stripped_url (N := GoURL.net) "https://h/r") "access")) = "private")
    by (vm_compute; reflexivity).
  split; [exact H1|]. split; [exact H2|]. split; [exact H3|].
  exact (proj2 (AccessFor_never_reads_private GoURL.net Sample.capital_private_finder
                  "https://h/r" H1 H2) H3).
Defined.

(** ** Upload and download *)

Lemma RemoteEndpoint_upload_without_push {N : url.Net} {L : lfshttp.Lib} {G : git.Lib}
    e env operation remote :
  gitEnv e = Some env -> remote <> "" ->
  config.Get env ("remote." ++ remote ++ ".lfspushurl") = None ->
  config.Get env ("remote." ++ remote ++ ".pushurl") = None ->
  RemoteEndpoint e "upload" remote = RemoteEndpoint e operation remote.
Proof.
  intros He Hr H1 H2. unfold RemoteEndpoint, GitRemoteURL.
  rewrite He, eqb_empty_length.
  apply String.eqb_neq in Hr. rewrite Hr.
  cbn [String.eqb Ascii.eqb Bool.eqb andb]. rewrite H1, H2.
  destruct (String.eqb operation "upload"); reflexivity.
Qed.

(** X21.  When the environment holds no push-specific key ([lfs.pushurl],
    and [lfspushurl] and [pushurl] of the remote and of "origin"), an upload
    resolves to the endpoint of any other operation, up to the operation
    tag. *)
Theorem Endpoint_upload_without_push_urls
    (N : url.Net) (L : lfshttp.Lib) (G : git.Lib)
    (e : endpointGitFinder) (env : config.Environment) (operation remote : string) :
  gitEnv e = Some env ->
  (forall k, k ∈ upload_keys remote -> config.Get env k = None) ->
  Endpoint e "upload" remote
  = lfshttp.with_Operation (Endpoint e operation remote) "upload".
Proof.
  intros He Hkeys.
  assert (Hk : forall n k, upload_keys remote !! n = Some k -> config.Get env k = None).
  { intros n k Hn. apply Hkeys. by eapply list_elem_of_lookup_2. }
  assert (Horigin : RemoteEndpoint e "upload" defaultRemote
                    = RemoteEndpoint e operation defaultRemote).
  { apply (RemoteEndpoint_upload_without_push e env); [exact He | discriminate | |].
    - exact (Hk 3 _ eq_refl).
    - exact (Hk 4 _ eq_refl). }
  assert (Hget : getEndpoint e "upload" remote = getEndpoint e operation remote).
  { unfold getEndpoint. rewrite He.
    cbn [String.eqb Ascii.eqb Bool.eqb andb]. rewrite (Hk 0 "lfs.pushurl" eq_refl).
    assert (Hnone : (if String.eqb operation "upload" then None else None)
                    = (None : option string))
      by (by destruct (String.eqb operation "upload")).
    rewrite Hnone.
    destruct (config.Get env "lfs.url"); [reflexivity|].
    rewrite Horigin.
    destruct ((0 <? String.length remote)%nat && negb (String.eqb remote defaultRemote))
      eqn:Hc; [|reflexivity].
    apply andb_true_iff in Hc as [Hlen _].
    assert (Hr : remote <> "") by (intros ->; discriminate).
    rewrite (RemoteEndpoint_upload_without_push e env operation remote He Hr
               (Hk 1 _ eq_refl) (Hk 2 _ eq_refl)).
    reflexivity. }
  unfold Endpoint. rewrite Hget. reflexivity.
Qed.

Lemma Endpoint_upload_without_push_urls_witness :
  gitEnv Sample.origin_finder = Some Sample.origin_env /\
  (forall k, k ∈ upload_keys "origin" -> config.Get Sample.origin_env k = None) /\
  Endpoint (N := GoURL.net) (L := Sample.lfshttp_lib) (G := Sample.git_lib)
    Sample.origin_finder "upload" "origin"
  = lfshttp.with_Operation
      (Endpoint (N := GoURL.net) (L := Sample.lfshttp_lib) (G := Sample.git_lib)
         Sample.origin_finder "download" "origin") "upload".
Proof.
  assert (H1 : gitEnv Sample.origin_finder = Some Sample.origin_env) by reflexivity.
  assert (H2 : forall k, k ∈ upload_keys "origin" -> config.Get Sample.origin_env k = None).
  { intros k Hk. unfold upload_keys in Hk.
    repeat (apply elem_of_cons in Hk as [-> | Hk]; [vm_compute; reflexivity|]).
    by apply elem_of_nil in Hk. }
  split; [exact H1|]. split; [exact H2|].
  exact (Endpoint_upload_without_push_urls GoURL.net Sample.lfshttp_lib Sample.git_lib
           Sample.origin_finder Sample.origin_env "download" "origin" H1 H2).
Defined.

(** X22.  [ReplaceUrlAlias] either returns the URL as it is, or replaces a
    non-empty configured prefix of the URL by its replacement and keeps the
    rest of the URL unchanged; it does nothing else. *)
Theorem ReplaceUrlAlias_rewrites_a_configured_prefix
    (aliases : gmap string string) (rawurl : string) :
  ReplaceUrlAlias aliases rawurl = rawurl \/
  exists p r rest,
    p <> "" /\ aliases !! p = Some r /\ rawurl = p ++ rest /\
    ReplaceUrlAlias aliases rawurl = r ++ rest.
Proof.
  destruct (longest_alias_spec aliases _ rawurl (iteration_order_canonical aliases))
    as (Hpre & _ & Hkey).
  unfold ReplaceUrlAlias, ReplaceUrlAlias_in.
  set (r0 := longest_alias _ rawurl) in *.
  destruct (0 <? String.length r0)%nat eqn:Hlen; [|by left].
  right. apply Nat.ltb_lt in Hlen.
  destruct Hkey as [He | [r Hr]]; [rewrite He in Hlen; simpl in Hlen; lia|].
  apply HasPrefix_app in Hpre as [rest Hrest].
  exists r0, r, rest. split; [intros He; rewrite He in Hlen; simpl in Hlen; lia|].
  split; [exact Hr|]. split; [exact Hrest|].
  unfold alias_index. rewrite Hr. simpl. clearbody r0. subst rawurl. by rewrite drop_app.
Qed.
